(** * SRA_Dispatch: the node balancer of [sra_dispatch/balance_nodes.py]

    A shallow embedding of [balance_nodes] and of its local helper
    [convert_size], and the properties of the balancing core checked
    against it; then [build_submit_file] of
    [sra_dispatch/build_submit_file.py] and the two calls of [main]
    that run the balancer and build the submit file.

    Modelling conventions.
    - A Python [float] is an exact rational extended with [inf], [-inf]
      and [nan] ([pyfloat]); the rounding and the overflow of IEEE
      doubles are not modelled.  A statement that needs an addition to
      be exact says so, with [binary64] and [adds_exactly]; the others
      are about runs that have ended, or compare computed values.  The
      floor division of the submit file is computed with its rounding
      ([nearest64]).  Division by an integer zero follows the
      float64 scalars pandas returns (a warning and [inf] or [nan], no
      exception); [//] between Python integers raises ZeroDivisionError.
    - Strings are ASCII [string]s.
    - The caller's DataFrame is a list of rows whose index labels are
      unique, so dropping the label [index[0]] or [index[-1]] removes
      exactly the first or the last row.
    - [max_cpu_request] and [cpu_per_node] are integers.
    - The caller's DataFrame is not empty when the node count is 0 (what
      the sum of an empty column divided by 0 gives depends on the type
      of the column).
    - [sort_values] keeps rows of equal [disk_req] in their order, as it
      does on short columns; the runs evaluated below have no ties that
      matter.
    - Logging and file-system calls are recorded, in order, as [event]s;
      they never fail, so an OSError of [open] is no outcome of the
      model, and what is stated of an exception is stated of ValueError
      and ZeroDivisionError.
    - The two [while] loops are driven by a fuel counter; running out of
      fuel is the outcome [OutOfFuel]. *)

From Stdlib Require Import ZArith QArith Qround Qpower Lqa Bool List Ascii
  String Lia Permutation.
Import ListNotations.

Local Open Scope string_scope.
Local Open Scope Z_scope.

(* ================================================================== *)
(** * Python strings: [strip], [in], [replace] *)
(* ================================================================== *)

Module PyStr.

(** [str.isspace] on ASCII: TAB..CR, FS..US and the blank. *)
Definition is_space (c : ascii) : bool :=
  let n := nat_of_ascii c in
  (((9 <=? n) && (n <=? 13)) || ((28 <=? n) && (n <=? 32)))%nat.

Fixpoint lstrip (s : string) : string :=
  match s with
  | String c r => if is_space c then lstrip r else s
  | EmptyString => EmptyString
  end.

Fixpoint rstrip (s : string) : string :=
  match s with
  | String c r =>
      match rstrip r with
      | EmptyString => if is_space c then EmptyString else String c EmptyString
      | r' => String c r'
      end
  | EmptyString => EmptyString
  end.

(** [s.strip()] *)
Definition strip (s : string) : string := lstrip (rstrip s).

Fixpoint starts_with (pat s : string) : bool :=
  match pat, s with
  | EmptyString, _ => true
  | String p pat', String c s' => Ascii.eqb p c && starts_with pat' s'
  | String _ _, EmptyString => false
  end.

(** [pat in s] *)
Fixpoint contains (pat s : string) : bool :=
  starts_with pat s
  || match s with
     | String _ r => contains pat r
     | EmptyString => false
     end.

(** [s.replace(old, new)] for a non-empty [old]: the occurrences are
    replaced from left to right, without overlap; [skip] counts the
    characters of a matched occurrence that are still to be dropped. *)
Fixpoint replace_from (skip : nat) (old new s : string) : string :=
  match s with
  | String c r =>
      match skip with
      | S k => replace_from k old new r
      | O =>
          if starts_with old s
          then new ++ replace_from (String.length old - 1) old new r
          else String c (replace_from 0 old new r)
      end
  | EmptyString => EmptyString
  end.

Definition replace (old new s : string) : string := replace_from 0 old new s.

Definition lower_char (c : ascii) : ascii :=
  let n := nat_of_ascii c in
  if ((65 <=? n) && (n <=? 90))%nat then ascii_of_nat (n + 32) else c.

Fixpoint lower (s : string) : string :=
  match s with
  | String c r => String (lower_char c) (lower r)
  | EmptyString => EmptyString
  end.

(** Every character of [s] satisfies [P]. *)
Fixpoint all_chars (P : ascii -> bool) (s : string) : bool :=
  match s with
  | String c r => P c && all_chars P r
  | EmptyString => true
  end.

Fixpoint mem (c : ascii) (s : string) : bool :=
  match s with
  | String c' r => Ascii.eqb c c' || mem c r
  | EmptyString => false
  end.

End PyStr.

(* ================================================================== *)
(** * Python floats *)
(* ================================================================== *)

Inductive pyfloat : Type :=
| Fin (q : Q)
| PInf
| NInf
| NaN.

Module PyNum.

(** [x + y] *)
Definition add (x y : pyfloat) : pyfloat :=
  match x, y with
  | NaN, _ | _, NaN => NaN
  | Fin a, Fin b => Fin (a + b)
  | PInf, NInf | NInf, PInf => NaN
  | PInf, _ | _, PInf => PInf
  | NInf, _ | _, NInf => NInf
  end.

(** [x * k] and [x / k] for a literal [k > 0] (the code uses 20 and 1024). *)
Definition scale (x : pyfloat) (k : Q) : pyfloat :=
  match x with
  | Fin a => Fin (a * k)
  | other => other
  end.

Definition unscale (x : pyfloat) (k : Q) : pyfloat :=
  match x with
  | Fin a => Fin (a / k)
  | other => other
  end.

(** [x < y]; every comparison with [nan] is false. *)
Definition ltb (x y : pyfloat) : bool :=
  match x, y with
  | NaN, _ | _, NaN => false
  | Fin a, Fin b => negb (Qle_bool b a)
  | NInf, NInf => false
  | NInf, _ => true
  | _, PInf => match x with PInf => false | _ => true end
  | _, _ => false
  end.

(** [x > y] *)
Definition gtb (x y : pyfloat) : bool := ltb y x.

(** [x == y] *)
Definition eqb (x y : pyfloat) : bool :=
  match x, y with
  | Fin a, Fin b => Qeq_bool a b
  | PInf, PInf | NInf, NInf => true
  | _, _ => false
  end.

(** [x == 0] *)
Definition is_zero (x : pyfloat) : bool :=
  match x with
  | Fin a => Qeq_bool a 0
  | _ => false
  end.

Definition is_nan (x : pyfloat) : bool :=
  match x with
  | NaN => true
  | _ => false
  end.

(** True division of a float64 scalar by a Python integer. *)
Definition div_int (x : pyfloat) (n : Z) : pyfloat :=
  match x with
  | NaN => NaN
  | Fin a =>
      if (n =? 0)%Z then
        match Qcompare a 0 with
        | Eq => NaN
        | Gt => PInf
        | Lt => NInf
        end
      else Fin (a / inject_Z n)
  | PInf => if (n <? 0)%Z then NInf else PInf
  | NInf => if (n <? 0)%Z then PInf else NInf
  end.

(** ** [float(s)]

    [floatvalue ::= [sign] (floatnumber | "inf" | "infinity" | "nan")],
    [floatnumber ::= number [exponent]],
    [number ::= [digitpart] "." digitpart | digitpart ["."]],
    [digitpart ::= digit (["_"] digit)*], surrounded by white space;
    the words are recognised in any letter case. *)

Definition digit_of (c : ascii) : option Z :=
  let n := nat_of_ascii c in
  if ((48 <=? n) && (n <=? 57))%nat then Some (Z.of_nat (n - 48)) else None.

Definition is_digit (c : ascii) : bool :=
  match digit_of c with
  | Some _ => true
  | None => false
  end.

(** Reads the longest [digitpart] at the head of [s]: its value on top
    of [acc], the number of digits read on top of [cnt], and the rest. *)
Fixpoint scan_digits (acc : Z) (cnt : nat) (s : string) : Z * nat * string :=
  match s with
  | String c r =>
      match digit_of c with
      | Some d => scan_digits (10 * acc + d) (S cnt) r
      | None =>
          match cnt, r with
          | S _, String c' _ =>
              if Ascii.eqb c "_" && is_digit c'
              then scan_digits acc cnt r
              else (acc, cnt, s)
          | _, _ => (acc, cnt, s)
          end
      end
  | EmptyString => (acc, cnt, s)
  end.

Definition split_sign (s : string) : bool * string :=
  match s with
  | String c r =>
      if Ascii.eqb c "+" then (false, r)
      else if Ascii.eqb c "-" then (true, r)
      else (false, s)
  | EmptyString => (false, s)
  end.

Definition parse_exponent (s : string) : option Z :=
  match s with
  | EmptyString => Some 0
  | String c r =>
      if Ascii.eqb c "e" || Ascii.eqb c "E" then
        let '(negative, r') := split_sign r in
        match scan_digits 0 0 r' with
        | (e, S _, EmptyString) => Some (if negative then - e else e)
        | _ => None
        end
      else None
  end.

Definition parse_decimal (s : string) : option Q :=
  let '(ip, ni, r1) := scan_digits 0 0 s in
  let '(fp, nf, r2) :=
    match r1 with
    | String c r => if Ascii.eqb c "." then scan_digits 0 0 r
                    else (0, 0%nat, r1)
    | EmptyString => (0, 0%nat, r1)
    end in
  if (ni + nf =? 0)%nat then None
  else
    match parse_exponent r2 with
    | Some e =>
        Some (inject_Z (ip * 10 ^ Z.of_nat nf + fp)
              * Qpower (inject_Z 10) (e - Z.of_nat nf))%Q
    | None => None
    end.

Definition py_float (s : string) : option pyfloat :=
  let '(negative, body) := split_sign (PyStr.strip s) in
  let word := PyStr.lower body in
  if String.eqb word "inf" || String.eqb word "infinity"
  then Some (if negative then NInf else PInf)
  else if String.eqb word "nan" then Some NaN
  else
    match parse_decimal body with
    | Some q => Some (Fin (if negative then - q else q))
    | None => None
    end.

(** The characters that can occur in a string [float] accepts. *)
Definition float_char (c : ascii) : bool :=
  PyStr.is_space c || is_digit c || PyStr.mem c "_.eE+-"
  || PyStr.mem (PyStr.lower_char c) "infatyn".

End PyNum.

(* ================================================================== *)
(** * pandas columns of floats *)
(* ================================================================== *)

Module Series.

Definition not_nan (x : pyfloat) : bool := negb (PyNum.is_nan x).

(** [Series.sum()], which skips [nan]. *)
Definition sum (col : list pyfloat) : pyfloat :=
  fold_left PyNum.add (filter not_nan col) (Fin 0).

(** [Series.max()], which skips [nan] and is [nan] when nothing is left. *)
Definition max_step (m x : pyfloat) : pyfloat :=
  if PyNum.is_nan m then x else if PyNum.gtb x m then x else m.

Definition max (col : list pyfloat) : pyfloat :=
  fold_left max_step (filter not_nan col) NaN.

(** The order of [sort_values(ascending=False)]: [x] comes strictly
    before [y] when it is larger, and any number before [nan]. *)
Definition before (x y : pyfloat) : bool :=
  match x, y with
  | NaN, _ => false
  | _, NaN => true
  | _, _ => PyNum.gtb x y
  end.

Section Sorting.
Context {A : Type} (key : A -> pyfloat).

Fixpoint insert_desc (r : A) (l : list A) : list A :=
  match l with
  | [] => [r]
  | r' :: l' =>
      if before (key r') (key r) then r' :: insert_desc r l' else r :: l
  end.

(** Rows of equal key keep their order. *)
Definition sort_desc (l : list A) : list A :=
  fold_right insert_desc [] l.
End Sorting.

End Series.

(* ================================================================== *)
(** * The data model *)
(* ================================================================== *)

(** A cell of the [run_1_size] column: missing, a string or a number. *)
Inductive cell : Type :=
| Missing
| Str (s : string)
| Num (x : pyfloat).

(** A row of the caller's DataFrame; the column [disk_req] is absent until
    [balance_nodes] adds it. *)
Record row : Type := mkRow {
  run_1_accession : string;
  run_1_size : cell;
  disk_req : option pyfloat
}.

(** The entries of [configs] that [balance_nodes] reads or writes. *)
Record configs : Type := mkConfigs {
  max_cpu_request : Z;
  cpu_per_node : Z;
  disk_request : option pyfloat;
  sra_list_folder : string;
  sra_query_file : string
}.

(** The statement that performs an integer floor division. *)
Inductive division : Type :=
| NodeCount       (* nodes = max_cpu_request // cpu_per_node *)
| CpuReallocation (* nodes // len(all_groups) *).

Inductive exn : Type :=
| ValueError (s : string)
| ZeroDivisionError (at_ : division)
| IndexError.

Inductive outcome (A : Type) : Type :=
| Ok (a : A)
| Raise (e : exn)
| OutOfFuel.
Arguments Ok {A} a.
Arguments Raise {A} e.
Arguments OutOfFuel {A}.

(** Logging and storage calls, in the order of execution.  The
    [logger.info] lines that only report the node count and the disk
    summary are left out.  The file [sras_to_process/SRA_set_<n>] is
    denoted by its number [n]. *)
Inductive event : Type :=
| Warning_unexpected_size_format (size_str : string)
| Warning_empty_partition
| Success_proceeding (avg_disk_per_node : pyfloat)
| Remove_if_exists (path : string)
| Mkdir (path : string)
| Info_group (group : nat) (disk : pyfloat)
| Info_group_size_exceeded
| Write_group (group : nat) (curr_group : list string)
| Write_queue (all_groups : list nat)
| Write_submit_configs (c : configs).

(** What the caller can observe: its DataFrame, its [configs] dictionary,
    and the log and storage. *)
Record world : Type := mkWorld {
  df : list row;
  cfg : configs;
  events : list event
}.

(* ================================================================== *)
(** * A state and exception monad over [world] *)
(* ================================================================== *)

Definition M (A : Type) : Type := world -> world * outcome A.

Definition ret {A} (a : A) : M A := fun w => (w, Ok a).

Definition bind {A B} (m : M A) (k : A -> M B) : M B :=
  fun w =>
    match m w with
    | (w', Ok a) => k a w'
    | (w', Raise e) => (w', Raise e)
    | (w', OutOfFuel) => (w', OutOfFuel)
    end.

Definition raise {A} (e : exn) : M A := fun w => (w, Raise e).
Definition out_of_fuel {A} : M A := fun w => (w, OutOfFuel).

Definition emit (e : event) : M unit :=
  fun w => (mkWorld (df w) (cfg w) (events w ++ [e]), Ok tt).

Definition get_df : M (list row) := fun w => (w, Ok (df w)).
Definition set_df (d : list row) : M unit :=
  fun w => (mkWorld d (cfg w) (events w), Ok tt).
Definition get_configs : M configs := fun w => (w, Ok (cfg w)).
Definition set_configs (c : configs) : M unit :=
  fun w => (mkWorld (df w) c (events w), Ok tt).

Declare Scope py_scope.
Delimit Scope py_scope with py.
Notation "x <- m ;; k" := (bind m (fun x => k))
  (at level 61, m at next level, right associativity) : py_scope.
Notation "m ;; k" := (bind m (fun _ => k))
  (at level 61, right associativity) : py_scope.
Local Open Scope py_scope.

(** [a // b] on Python integers. *)
Definition floordiv (at_ : division) (a b : Z) : M Z :=
  if (b =? 0)%Z then raise (ZeroDivisionError at_) else ret (a / b).

Definition from_option {A} (o : option A) (e : exn) : M A :=
  match o with
  | Some a => ret a
  | None => raise e
  end.

(* ================================================================== *)
(** * [convert_size] *)
(* ================================================================== *)

(** [float(s)], raising ValueError when [s] is no float literal. *)
Definition float_of (s : string) : M pyfloat :=
  from_option (PyNum.py_float s) (ValueError s).

(** [pd.isna(size_str)] *)
Definition isna (size_str : cell) : bool :=
  match size_str with
  | Missing => true
  | Num x => PyNum.is_nan x
  | Str _ => false
  end.

(** The body of the [except ValueError] branch. *)
Definition convert_units (size_str : string) : M pyfloat :=
  if PyStr.contains "GB" size_str then
    x <- float_of (PyStr.replace "GB" "" size_str) ;;
    ret (PyNum.scale x 1024)
  else if PyStr.contains "MB" size_str then
    float_of (PyStr.replace "MB" "" size_str)
  else if PyStr.contains "KB" size_str then
    x <- float_of (PyStr.replace "KB" "" size_str) ;;
    ret (PyNum.unscale x 1024)
  else
    emit (Warning_unexpected_size_format size_str) ;;
    ret (Fin 0).

(** On a cell that holds a number, [str] and then [float] give the
    number back. *)
Definition convert_size (size_str : cell) : M pyfloat :=
  if isna size_str then ret (Fin 0)
  else
    match size_str with
    | Str s =>
        let size_str := PyStr.strip s in
        match PyNum.py_float size_str with
        | Some x => ret x
        | None => convert_units size_str
        end
    | Num x => ret x
    | Missing => ret (Fin 0)
    end.

(** [column.apply(convert_size)] *)
Fixpoint apply_convert_size (column : list cell) : M (list pyfloat) :=
  match column with
  | [] => ret []
  | c :: rest =>
      x <- convert_size c ;;
      xs <- apply_convert_size rest ;;
      ret (x :: xs)
  end.

(* ================================================================== *)
(** * [balance_nodes] *)
(* ================================================================== *)

(** The increment of the overflow-adjustment loop. *)
Definition increment : Q := 1000000000.

(** [while max_size_SRA > avg_disk_per_node: avg_disk_per_node += 1000000000] *)
Fixpoint overflow_loop (fuel : nat) (max_size_SRA avg_disk_per_node : pyfloat)
  : M pyfloat :=
  if PyNum.gtb max_size_SRA avg_disk_per_node then
    match fuel with
    | O => out_of_fuel
    | S fuel' =>
        emit Warning_empty_partition ;;
        overflow_loop fuel' max_size_SRA
          (PyNum.add avg_disk_per_node (Fin increment))
    end
  else ret avg_disk_per_node.

(** The [if]/[else] around the loop: the [else] branch only logs. *)
Definition overflow_adjust (fuel : nat) (max_size_SRA avg_disk_per_node : pyfloat)
  : M pyfloat :=
  if PyNum.gtb max_size_SRA avg_disk_per_node then
    overflow_loop fuel max_size_SRA avg_disk_per_node
  else
    emit (Success_proceeding avg_disk_per_node) ;;
    ret avg_disk_per_node.

(** A row of [df_sorted]: the accession and its [disk_req]. *)
Definition item : Type := (string * pyfloat)%type.

(** The local variables of the partition loop. *)
Record locals : Type := mkLocals {
  df_sorted : list item;
  group : nat;
  curr_group : list string;
  all_groups : list nat;
  node_size : pyfloat
}.

Inductive flow : Type := Continue | Break.

(** [.iloc[0]] and [.iloc[-1]] *)
Definition iloc_first (l : list item) : M item :=
  from_option (hd_error l) IndexError.
Definition iloc_last (l : list item) : M item :=
  from_option (hd_error (rev l)) IndexError.

(** [drop(index[0])] and [drop(index[-1])] *)
Definition drop_first (l : list item) : list item := tl l.
Definition drop_last (l : list item) : list item := removelast l.

(** One pass of the body of [while len(df_sorted) > 0]. *)
Definition partition_step (avg_disk_per_node : pyfloat) (v : locals)
  : M (locals * flow) :=
  if (List.length (df_sorted v) =? 1)%nat then
    first <- iloc_first (df_sorted v) ;;
    emit (Info_group (group v) (snd first)) ;;
    ret (mkLocals (drop_first (df_sorted v)) (group v) (curr_group v)
           (all_groups v) (node_size v), Break)
  else if PyNum.is_zero (node_size v) then
    first <- iloc_first (df_sorted v) ;;
    emit (Info_group (group v) (snd first)) ;;
    ret (mkLocals (drop_first (df_sorted v)) (group v)
           (curr_group v ++ [fst first]) (all_groups v)
           (PyNum.add (node_size v) (snd first)), Continue)
  else
    last <- iloc_last (df_sorted v) ;;
    if PyNum.ltb (PyNum.add (node_size v) (snd last)) avg_disk_per_node then
      emit (Info_group (group v) (snd last)) ;;
      let df_sorted' := drop_last (df_sorted v) in
      last' <- iloc_last df_sorted' ;;
      ret (mkLocals df_sorted' (group v) (curr_group v ++ [fst last])
             (all_groups v) (PyNum.add (node_size v) (snd last')), Continue)
    else
      let group' := S (group v) in
      emit (Write_group group' (curr_group v)) ;;
      emit Info_group_size_exceeded ;;
      ret (mkLocals (df_sorted v) group' [] (all_groups v ++ [group'])
             (Fin 0), Continue).

Fixpoint partition_loop (fuel : nat) (avg_disk_per_node : pyfloat) (v : locals)
  : M locals :=
  if (0 <? List.length (df_sorted v))%nat then
    match fuel with
    | O => out_of_fuel
    | S fuel' =>
        r <- partition_step avg_disk_per_node v ;;
        match snd r with
        | Break => ret (fst r)
        | Continue => partition_loop fuel' avg_disk_per_node (fst r)
        end
    end
  else ret v.

(** The new [cpu_per_node]. *)
Definition reallocate_cpu (nodes : Z) (groups : nat) (cpu_per_node : Z) : M Z :=
  q <- floordiv CpuReallocation nodes (Z.of_nat groups) ;;
  if (2 <=? q)%Z then ret (2 * cpu_per_node)%Z else ret cpu_per_node.

(** The rows after [df["run_1_size"] = ...] and [df["disk_req"] = ...]. *)
Definition with_sizes (d : list row) (sizes : list pyfloat) : list row :=
  map (fun rx => mkRow (run_1_accession (fst rx)) (Num (snd rx))
                   (Some (PyNum.scale (snd rx) 20)))
      (combine d sizes).

Definition disk_reqs (sizes : list pyfloat) : list pyfloat :=
  map (fun x => PyNum.scale x 20) sizes.

Definition items_of (d : list row) (sizes : list pyfloat) : list item :=
  combine (map run_1_accession d) (disk_reqs sizes).

(** Lines 42 to 116: everything up to the partition loop.  The result is
    the node count, the adjusted [avg_disk_per_node] and [df_sorted]. *)
Definition prepare (fuel : nat) : M (Z * pyfloat * list item) :=
  configs <- get_configs ;;
  nodes <- floordiv NodeCount (max_cpu_request configs) (cpu_per_node configs) ;;
  d <- get_df ;;
  sizes <- apply_convert_size (map run_1_size d) ;;
  set_df (with_sizes d sizes) ;;
  let avg_disk_per_node := PyNum.div_int (Series.sum (disk_reqs sizes)) nodes in
  let max_size_SRA := Series.max (disk_reqs sizes) in
  avg_disk_per_node <- overflow_adjust fuel max_size_SRA avg_disk_per_node ;;
  let df_sorted := Series.sort_desc snd (items_of d sizes) in
  emit (Remove_if_exists (sra_list_folder configs)) ;;
  emit (Remove_if_exists (sra_query_file configs)) ;;
  emit (Mkdir (sra_list_folder configs)) ;;
  ret (nodes, avg_disk_per_node, df_sorted).

(** The local variables on entry to the partition loop. *)
Definition entry (df_sorted : list item) : locals :=
  mkLocals df_sorted 0 [] [] (Fin 0).

(** Lines 118 to 147: the partition loop and the queue file. *)
Definition partition (fuel : nat) (avg_disk_per_node : pyfloat)
  (df_sorted : list item) : M locals :=
  v <- partition_loop fuel avg_disk_per_node (entry df_sorted) ;;
  emit (Write_queue (all_groups v)) ;;
  ret v.

(** Lines 149 to 166. *)
Definition finish (nodes : Z) (avg_disk_per_node : pyfloat) (v : locals)
  : M configs :=
  configs <- get_configs ;;
  cpu <- reallocate_cpu nodes (List.length (all_groups v)) (cpu_per_node configs) ;;
  let configs' :=
    mkConfigs (max_cpu_request configs) cpu (Some avg_disk_per_node)
      (sra_list_folder configs) (sra_query_file configs) in
  set_configs configs' ;;
  emit (Write_submit_configs configs') ;;
  ret configs'.

Definition balance_nodes (fuel : nat) : M configs :=
  p <- prepare fuel ;;
  let '(nodes, avg_disk_per_node, df_sorted) := p in
  v <- partition fuel avg_disk_per_node df_sorted ;;
  finish nodes avg_disk_per_node v.

(** ** Observations on a run *)

(** The first [n] passes of the partition loop. *)
Fixpoint run_steps (n : nat) (avg_disk_per_node : pyfloat) (v : locals)
  : M locals :=
  match n with
  | O => ret v
  | S n' =>
      r <- partition_step avg_disk_per_node v ;;
      match snd r with
      | Break => ret (fst r)
      | Continue => run_steps n' avg_disk_per_node (fst r)
      end
  end.

(** The item IDs written to the group files, file after file. *)
Fixpoint written_ids (es : list event) : list string :=
  match es with
  | Write_group _ members :: es' => members ++ written_ids es'
  | _ :: es' => written_ids es'
  | [] => []
  end.

Definition input_ids (d : list row) : list string := map run_1_accession d.

(** The number of group files written. *)
Fixpoint groups_written (es : list event) : nat :=
  match es with
  | Write_group _ _ :: es' => S (groups_written es')
  | _ :: es' => groups_written es'
  | [] => 0%nat
  end.

(** [a] after [k] passes of the overflow-adjustment loop. *)
Fixpoint add_passes (k : nat) (a : pyfloat) : pyfloat :=
  match k with
  | O => a
  | S k' => add_passes k' (PyNum.add a (Fin increment))
  end.

Definition is_finite (x : pyfloat) : bool :=
  match x with
  | Fin _ => true
  | _ => false
  end.

(** ** Rounding to binary64

    The float operations of the code round their exact result to the
    nearest binary64 number, ties to the even significand.  [nearest64]
    is this rounding on a rational below 2^1024 in size: with
    [e = floor (log2 |q|)], the result is the multiple of
    [2 ^ max (e - 52) (-1074)] nearest to [q]. *)

(** [floor (log2 q)] for [q > 0]. *)
Definition log2_floor (q : Q) : Z :=
  let e0 := (Z.log2 (Qnum q) - Z.log2 (Zpos (Qden q)))%Z in
  if Qle_bool (2 ^ e0) q then e0 else (e0 - 1)%Z.

(** The integer nearest to [s], the even one of two that are equally
    near. *)
Definition round_half_even (s : Q) : Z :=
  let f := Qfloor s in
  match (s - inject_Z f ?= 1 # 2)%Q with
  | Lt => f
  | Gt => (f + 1)%Z
  | Eq => if Z.even f then f else (f + 1)%Z
  end.

(** The binary64 number nearest to [a > 0]: a significand of 53 bits,
    or fewer below [2^-1022]. *)
Definition nearest64_pos (a : Q) : Q :=
  let t := Z.max (log2_floor a - 52) (-1074) in
  Qred (inject_Z (round_half_even (a / 2 ^ t)) * 2 ^ t).

(** The binary64 number nearest to [q]. *)
Definition nearest64 (q : Q) : Q :=
  match (q ?= 0)%Q with
  | Eq => 0%Q
  | Gt => nearest64_pos q
  | Lt => (- nearest64_pos (- q))%Q
  end.



(** The log of [overflow_adjust] after [k] passes. *)
Definition adjust_log (k : nat) (a : pyfloat) : list event :=
  match k with
  | O => [Success_proceeding a]
  | S _ => repeat Warning_empty_partition k
  end.

(** The storage reset of lines 107 to 116. *)
Definition storage_reset (c : configs) : list event :=
  [Remove_if_exists (sra_list_folder c);
   Remove_if_exists (sra_query_file c);
   Mkdir (sra_list_folder c)].

Definition warnings (ss : list string) : list event :=
  map Warning_unexpected_size_format ss.

(** The world [w] with the events [es] appended to its log. *)
Definition logged (w : world) (es : list event) : world :=
  mkWorld (df w) (cfg w) (events w ++ es).

(** The measure of progress of the partition loop: twice the rows left,
    plus one while a group is open with a non-zero size. *)
Definition progress (v : locals) : nat :=
  (2 * List.length (df_sorted v)
   + (if PyNum.is_zero (node_size v) then 0 else 1))%nat.

(** The rows a pass drops without putting them in a group. *)
Definition lost (f : flow) : nat :=
  match f with
  | Break => 1
  | Continue => 0
  end.

(** The configuration entries that [balance_nodes] only reads. *)
Definition same_static (c c' : configs) : Prop :=
  max_cpu_request c' = max_cpu_request c
  /\ sra_list_folder c' = sra_list_folder c
  /\ sra_query_file c' = sra_query_file c.

(** ** A run of the scenario of the specification *)

Definition fresh (size_str : string) (accession : string) : row :=
  mkRow accession (Str size_str) None.

Definition scenario_df : list row :=
  [fresh "2.5" "A"; fresh "2" "B"; fresh "1.5" "C"; fresh "0.5" "D"].

Definition scenario_configs : configs :=
  mkConfigs 8 4 None "sras_to_process" "sra_queue.txt".

Definition scenario : world := mkWorld scenario_df scenario_configs [].


(** The scenario with fewer CPUs than one node takes. *)
Definition underprovisioned : world :=
  mkWorld scenario_df (mkConfigs 2 4 None "sras_to_process" "sra_queue.txt") [].

(** Disk requirements 120, 100, 80, 60, 40 and 20 on three nodes. *)
Definition six_items : world :=
  mkWorld [fresh "6" "A"; fresh "5" "B"; fresh "4" "C";
           fresh "3" "D"; fresh "2" "E"; fresh "1" "F"]
    (mkConfigs 12 4 None "sras_to_process" "sra_queue.txt") [].



(* ================================================================== *)
(** * The partition loop as a relation *)
(* ================================================================== *)

(** [pass avg v es v' f]: from the local variables [v], one pass of the
    loop body logs and writes [es], leaves [v'] and ends in [f].  The
    four rules are the four branches of the body. *)
Inductive pass (avg : pyfloat)
  : locals -> list event -> locals -> flow -> Prop :=
| pass_last it g cg ag ns :
    pass avg (mkLocals [it] g cg ag ns)
      [Info_group g (snd it)]
      (mkLocals [] g cg ag ns) Break
| pass_seed it it2 rest g cg ag ns :
    PyNum.is_zero ns = true ->
    pass avg (mkLocals (it :: it2 :: rest) g cg ag ns)
      [Info_group g (snd it)]
      (mkLocals (it2 :: rest) g (cg ++ [fst it]) ag (PyNum.add ns (snd it)))
      Continue
| pass_accept l y x g cg ag ns :
    PyNum.is_zero ns = false ->
    PyNum.ltb (PyNum.add ns (snd x)) avg = true ->
    pass avg (mkLocals (l ++ [y; x]) g cg ag ns)
      [Info_group g (snd x)]
      (mkLocals (l ++ [y]) g (cg ++ [fst x]) ag (PyNum.add ns (snd y)))
      Continue
| pass_close l y x g cg ag ns :
    PyNum.is_zero ns = false ->
    PyNum.ltb (PyNum.add ns (snd x)) avg = false ->
    pass avg (mkLocals (l ++ [y; x]) g cg ag ns)
      [Write_group (S g) cg; Info_group_size_exceeded]
      (mkLocals (l ++ [y; x]) (S g) [] (ag ++ [S g]) (Fin 0))
      Continue.

(** Any number of passes, up to and including the one that breaks. *)
Inductive passes (avg : pyfloat) : locals -> list event -> locals -> Prop :=
| passes_none v : passes avg v [] v
| passes_break v es v' : pass avg v es v' Break -> passes avg v es v'
| passes_more v es1 v1 es2 v2 :
    pass avg v es1 v1 Continue ->
    passes avg v1 es2 v2 ->
    passes avg v (es1 ++ es2) v2.

(** The accessions of rows of [df_sorted]. *)
Definition ids (l : list item) : list string := map fst l.

(** While no accession is in the open group, [node_size] is zero. *)
Definition open_is_counted (v : locals) : Prop :=
  curr_group v = [] -> PyNum.is_zero (node_size v) = true.

(** The run got through the partition loop: it returned, or raised at the
    CPU reallocation. *)
Definition completed (o : outcome configs) : bool :=
  match o with
  | Ok _ => true
  | Raise (ZeroDivisionError CpuReallocation) => true
  | _ => false
  end.

(** Every row of [df_sorted] has a [disk_req] of zero. *)
Definition weightless (l : list item) : Prop :=
  Forall (fun it => PyNum.is_zero (snd it) = true) l.

(** Four rows without a usable size: missing, an unknown unit, zero. *)
Definition unsized : world :=
  mkWorld [mkRow "A" Missing None; fresh "3TB" "B"; fresh "0" "C";
           mkRow "D" Missing None]
    scenario_configs [].

(** Two rows on two nodes. *)
Definition two_rows : world :=
  mkWorld [fresh "2.5" "A"; fresh "0.5" "B"] scenario_configs [].

(** The group files written, in order: the number and the members. *)
Fixpoint written_groups (es : list event) : list (nat * list string) :=
  match es with
  | Write_group n members :: es' => (n, members) :: written_groups es'
  | _ :: es' => written_groups es'
  | [] => []
  end.

(* ================================================================== *)
(** * The submit file of [sra_dispatch/build_submit_file.py] *)
(* ================================================================== *)

(** The integer part of [q], towards zero. *)
Definition Qtrunc (q : Q) : Z :=
  if Qle_bool 0 q then Qfloor q else Qceiling q.

(** [x // k] for a float [x] and a non-zero integer literal [k], as
    Python and numpy compute it on binary64: with [mod = fmod(x, k)],
    which is exact, the quotient [(x - mod) / k] is rounded twice,
    lowered by one when [mod] and [k] differ in sign, and snapped to
    the nearest integer below or half above it.  No step overflows;
    [inf], [-inf] and [nan] give [nan]. *)
Definition floordiv_float (x : pyfloat) (k : Z) : pyfloat :=
  match x with
  | Fin a =>
      let b := inject_Z k in
      let md := (a - b * inject_Z (Qtrunc (a / b)))%Q in
      let div0 := nearest64 (nearest64 (a - md) / b) in
      let div :=
        if negb (Qeq_bool md 0)
           && negb (Bool.eqb (k <? 0)%Z (negb (Qle_bool 0 md)))
        then nearest64 (div0 - 1) else div0 in
      if Qeq_bool div 0 then Fin 0
      else
        let fl := inject_Z (Qfloor div) in
        if Qle_bool (div - fl) (1 # 2) then Fin (Qred fl)
        else Fin (nearest64 (fl + 1))
  | _ => NaN
  end.

(** [s.endswith("/")] *)
Fixpoint ends_with_sep (s : string) : bool :=
  match s with
  | EmptyString => false
  | String c EmptyString => Ascii.eqb c "/"
  | String _ r => ends_with_sep r
  end.

(** [os.path.join(a, b)] of [posixpath]. *)
Definition path_join (a b : string) : string :=
  if PyStr.starts_with "/" b then b
  else if (String.length a =? 0)%nat || ends_with_sep a then a ++ b
  else a ++ "/" ++ b.

(** The entries of [configs] that only [build_submit_file] reads;
    [balance_nodes] hands them on as they are. *)
Record settings : Type := mkSettings {
  sra_processing_program : string;
  static_files : string;
  modules : string;
  output_results : string;
  fasterq_temp : string;
  memory_request : Z
}.

(** The values that fill the template of [submit_file.sub], in the order
    of its lines: [executable], the directory after [$(BATCH)] in
    [arguments], [_CONDOR_SCRATCH_DIR], [request_cpus], the numbers
    before the [G] of [request_memory] and of [request_disk], the
    entries of [transfer_input_files], and the file after
    [queue BATCH from]. *)
Record submit_file : Type := mkSubmitFile {
  executable : string;
  arguments : string;
  scratch_dir : string;
  request_cpus : Z;
  request_memory : Z;
  request_disk : pyfloat;
  transfer_input_files : list string;
  queue_from : string
}.

(** [build_submit_file(configs)], with [base_dir] the directory above
    the package.  The result is the content written to
    [submit_file.sub]; [None] is the KeyError raised when [configs] has
    no [disk_request]. *)
Definition build_submit_file (base_dir : string) (st : settings)
  (c : configs) : option submit_file :=
  match disk_request c with
  | None => None
  | Some d =>
      Some (mkSubmitFile
              (path_join base_dir (sra_processing_program st))
              (output_results st)
              (fasterq_temp st)
              (cpu_per_node c)
              (memory_request st)
              (floordiv_float d 1000000000)
              [path_join base_dir "config/submit_configs.json";
               path_join base_dir (static_files st);
               path_join base_dir (modules st);
               path_join base_dir (sra_processing_program st);
               sra_query_file c;
               sra_list_folder c]
              (sra_query_file c))
  end.

(** The last two calls of [main] in [sra_dispatch/__main__.py]:
    [submit_configs = balance_nodes(srr_with_size, config)] and
    [build_submit_file(submit_configs)].  The world holds the DataFrame
    the query returned and the configuration that was loaded. *)
Definition main (fuel : nat) (base_dir : string) (st : settings)
  : M (option submit_file) :=
  submit_configs <- balance_nodes fuel ;;
  ret (build_submit_file base_dir st submit_configs).

(** The path [balance_nodes] opens for the configuration it writes
    (the event [Write_submit_configs]); it is relative to the working
    directory. *)
Definition submit_configs_path : string := "configs/submit_configs.json".

(** [s.endswith(pat)] *)
Fixpoint ends_with (pat s : string) : bool :=
  String.eqb pat s
  || match s with
     | String _ r => ends_with pat r
     | EmptyString => false
     end.

(** What a second [convert_size] makes of a converted size. *)
Definition reconverted (x : pyfloat) : pyfloat :=
  if PyNum.is_nan x then Fin 0 else x.



Definition scenario_settings : settings :=
  mkSettings "modules/sra_cryptic_loop.sh" "static_files" "modules"
    "/staging/results" "/scratch" 16.

(* ================================================================== *)
(** * Facts on strings *)
(* ================================================================== *)

Section StringFacts.
Import PyStr.

Lemma all_chars_app (P : ascii -> bool) (a b : string) :
  all_chars P (a ++ b) = all_chars P a && all_chars P b.
Proof.
  induction a as [|c a IH]; simpl; [reflexivity|].
  now rewrite IH, andb_assoc.
Qed.

Lemma lstrip_app_nonspace (d : string) (c : ascii) (r : string) :
  is_space c = false -> lstrip (d ++ String c r) = lstrip d ++ String c r.
Proof.
  intros Hc. induction d as [|x d IH]; simpl.
  - now rewrite Hc.
  - destruct (is_space x); [exact IH | reflexivity].
Qed.


Lemma rstrip_lstrip (d : string) : rstrip (lstrip d) = lstrip (rstrip d).
Proof.
  induction d as [|x d IH]; [reflexivity|].
  simpl lstrip at 1. destruct (is_space x) eqn:Hx.
  - rewrite IH. simpl rstrip. destruct (rstrip d) as [|y r'].
    + now rewrite Hx.
    + simpl. now rewrite Hx.
  - simpl rstrip.
    destruct (rstrip d) as [|y r']; rewrite ?Hx; simpl; now rewrite Hx.
Qed.

Lemma lstrip_idem (d : string) : lstrip (lstrip d) = lstrip d.
Proof.
  induction d as [|x d IH]; [reflexivity|].
  simpl. destruct (is_space x) eqn:Hx; [exact IH|].
  simpl. now rewrite Hx.
Qed.

Lemma strip_lstrip (d : string) : strip (lstrip d) = strip d.
Proof. unfold strip. now rewrite rstrip_lstrip, lstrip_idem. Qed.


Lemma all_chars_lstrip (P : ascii -> bool) (s : string) :
  all_chars P s = true -> all_chars P (lstrip s) = true.
Proof.
  induction s as [|x s IH]; simpl; [trivial|].
  intros H. apply andb_prop in H as [Hx Hs].
  destruct (is_space x); [auto | simpl; now rewrite Hx, Hs].
Qed.

Lemma all_chars_of_lstrip (P : ascii -> bool) (s : string) :
  (forall c, is_space c = true -> P c = true) ->
  all_chars P (lstrip s) = true -> all_chars P s = true.
Proof.
  intros Hsp. induction s as [|x s IH]; simpl; [trivial|].
  destruct (is_space x) eqn:Hx.
  - intros H. now rewrite (Hsp x Hx), IH.
  - trivial.
Qed.

Lemma all_chars_of_rstrip (P : ascii -> bool) (s : string) :
  (forall c, is_space c = true -> P c = true) ->
  all_chars P (rstrip s) = true -> all_chars P s = true.
Proof.
  intros Hsp. induction s as [|x s IH]; [trivial|].
  simpl rstrip. destruct (rstrip s) as [|y r'] eqn:Hr.
  - destruct (is_space x) eqn:Hx; simpl; intros H.
    + now rewrite (Hsp x Hx), IH.
    + apply andb_prop in H as [H _]. now rewrite H, IH.
  - simpl. intros H. apply andb_prop in H as [H1 H2].
    rewrite H1. simpl. apply IH. exact H2.
Qed.

Lemma all_chars_of_strip (P : ascii -> bool) (s : string) :
  (forall c, is_space c = true -> P c = true) ->
  all_chars P (strip s) = true -> all_chars P s = true.
Proof.
  intros Hsp H. apply all_chars_of_rstrip; [exact Hsp|].
  apply all_chars_of_lstrip; [exact Hsp | exact H].
Qed.



(** A pattern whose first character does not occur is not found. *)
Lemma contains_absent (a : ascii) (pat s : string) :
  all_chars (fun c => negb (Ascii.eqb a c)) s = true ->
  contains (String a pat) s = false.
Proof.
  induction s as [|c s IH]; simpl; [trivial|].
  intros H. apply andb_prop in H as [Hc Hs].
  apply negb_true_iff in Hc. rewrite Hc. simpl. auto.
Qed.


Lemma all_chars_weaken (P R : ascii -> bool) (s : string) :
  (forall c, P c = true -> R c = true) ->
  all_chars P s = true -> all_chars R s = true.
Proof.
  intros HPR. induction s as [|c s IH]; simpl; [trivial|].
  intros H. apply andb_prop in H as [Hc Hs].
  now rewrite (HPR c Hc), IH.
Qed.

End StringFacts.

(* ================================================================== *)
(** * Facts on [float] *)
(* ================================================================== *)

Section FloatFacts.
Import PyStr PyNum.

Lemma digit_float_char (c : ascii) (d : Z) :
  digit_of c = Some d -> float_char c = true.
Proof.
  intros H. unfold float_char, is_digit. rewrite H.
  now rewrite orb_true_r.
Qed.

Lemma scan_digits_split (s : string) :
  forall acc cnt v n r,
    scan_digits acc cnt s = (v, n, r) ->
    exists p, s = p ++ r /\ all_chars float_char p = true.
Proof.
  induction s as [|c s IH]; intros acc cnt v n r H; simpl in H.
  - inversion H; subst. now exists "".
  - destruct (digit_of c) as [d|] eqn:Hd.
    + apply IH in H as (p & -> & Hp). exists (String c p). simpl.
      now rewrite (digit_float_char _ _ Hd), Hp.
    + destruct cnt as [|k]; [inversion H; subst; now exists ""|].
      destruct s as [|c' s']; [inversion H; subst; now exists ""|].
      destruct (Ascii.eqb c "_" && is_digit c') eqn:E.
      * apply IH in H as (p & Hp1 & Hp2). exists (String c p). simpl.
        rewrite Hp1, Hp2. split; [reflexivity|].
        apply andb_prop in E as [E _]. apply Ascii.eqb_eq in E.
        now subst c.
      * inversion H; subst. now exists "".
Qed.

Lemma split_sign_cases (s r : string) (negative : bool) :
  split_sign s = (negative, r) ->
  s = r \/ s = String "+" r \/ s = String "-" r.
Proof.
  destruct s as [|c s]; simpl.
  - intros H; inversion H; auto.
  - destruct (Ascii.eqb c "+") eqn:E1.
    + apply Ascii.eqb_eq in E1. intros H; inversion H; subst; auto.
    + destruct (Ascii.eqb c "-") eqn:E2.
      * apply Ascii.eqb_eq in E2. intros H; inversion H; subst; auto.
      * intros H; inversion H; auto.
Qed.

Lemma split_sign_chars (s r : string) (negative : bool) :
  split_sign s = (negative, r) ->
  all_chars float_char r = true -> all_chars float_char s = true.
Proof.
  intros H Hr.
  destruct (split_sign_cases _ _ _ H) as [->|[->| ->]]; simpl; auto.
Qed.

Lemma parse_exponent_chars (s : string) (e : Z) :
  parse_exponent s = Some e -> all_chars float_char s = true.
Proof.
  destruct s as [|c s]; simpl; [trivial|].
  destruct (Ascii.eqb c "e" || Ascii.eqb c "E") eqn:E; [|discriminate].
  destruct (split_sign s) as [negative r'] eqn:Hs.
  destruct (scan_digits 0 0 r') as [[v n] rest] eqn:Hd.
  destruct n as [|n]; [discriminate|].
  destruct rest; [|discriminate]. intros _.
  apply scan_digits_split in Hd as (p & -> & Hp).
  assert (Hc : float_char c = true).
  { apply orb_prop in E as [E|E]; apply Ascii.eqb_eq in E; now subst c. }
  rewrite Hc. simpl. apply (split_sign_chars _ _ _ Hs).
  now rewrite all_chars_app, Hp.
Qed.

Lemma parse_decimal_chars (s : string) (q : Q) :
  parse_decimal s = Some q -> all_chars float_char s = true.
Proof.
  unfold parse_decimal.
  destruct (scan_digits 0 0 s) as [[ip ni] r1] eqn:H1.
  apply scan_digits_split in H1 as (p1 & -> & Hp1).
  rewrite all_chars_app, Hp1. simpl.
  destruct r1 as [|c r].
  - destruct (ni + 0 =? 0)%nat; [discriminate|]. trivial.
  - destruct (Ascii.eqb c ".") eqn:Ec.
    + destruct (scan_digits 0 0 r) as [[fp nf] r2] eqn:H2.
      apply scan_digits_split in H2 as (p2 & -> & Hp2).
      destruct (ni + nf =? 0)%nat; [discriminate|].
      destruct (parse_exponent r2) as [e|] eqn:He; [|discriminate].
      intros _. apply Ascii.eqb_eq in Ec. subst c. simpl.
      rewrite all_chars_app, Hp2. simpl.
      exact (parse_exponent_chars _ _ He).
    + destruct (ni + 0 =? 0)%nat; [discriminate|].
      destruct (parse_exponent (String c r)) as [e|] eqn:He; [|discriminate].
      intros _. exact (parse_exponent_chars _ _ He).
Qed.

Lemma word_chars (body w : string) :
  lower body = w ->
  all_chars (fun c => mem c "infatyn") w = true ->
  all_chars float_char body = true.
Proof.
  revert w. induction body as [|c body IH]; intros w Hw Hall; [reflexivity|].
  simpl in Hw. subst w. cbn [all_chars] in Hall.
  apply andb_prop in Hall as [Hc Hrest].
  change (mem (lower_char c) "infatyn" = true) in Hc.
  cbn [all_chars]. rewrite (IH _ eq_refl Hrest), andb_true_r.
  unfold float_char. rewrite Hc. apply orb_true_r.
Qed.

Lemma space_float_char (c : ascii) : is_space c = true -> float_char c = true.
Proof. intros H. unfold float_char. now rewrite H. Qed.

(** A string that [float] accepts is written in the float alphabet. *)
Lemma py_float_chars (s : string) (x : pyfloat) :
  py_float s = Some x -> all_chars float_char s = true.
Proof.
  unfold py_float. intros H.
  apply all_chars_of_strip; [exact space_float_char|].
  destruct (split_sign (strip s)) as [negative body] eqn:Hs.
  apply (split_sign_chars _ _ _ Hs).
  destruct (String.eqb (lower body) "inf") eqn:E1.
  { apply String.eqb_eq in E1. now apply (word_chars _ _ E1). }
  destruct (String.eqb (lower body) "infinity") eqn:E2.
  { apply String.eqb_eq in E2. now apply (word_chars _ _ E2). }
  simpl in H.
  destruct (String.eqb (lower body) "nan") eqn:E3.
  { apply String.eqb_eq in E3. now apply (word_chars _ _ E3). }
  destruct (parse_decimal body) as [q|] eqn:Hq; [|discriminate].
  exact (parse_decimal_chars _ _ Hq).
Qed.


Lemma rstrip_idem (d : string) : rstrip (rstrip d) = rstrip d.
Proof.
  induction d as [|x d IH]; [reflexivity|].
  cbn [rstrip]. destruct (rstrip d) as [|y r'] eqn:Hr.
  - destruct (is_space x) eqn:Hx; simpl; now rewrite ?Hx.
  - cbn [rstrip] in *. now rewrite IH.
Qed.

Lemma strip_idem (d : string) : strip (strip d) = strip d.
Proof.
  unfold strip at 2. rewrite strip_lstrip. unfold strip.
  now rewrite rstrip_idem.
Qed.

Lemma py_float_strip (d : string) : py_float (strip d) = py_float d.
Proof. unfold py_float. now rewrite strip_idem. Qed.

End FloatFacts.

(* ================================================================== *)
(** * [convert_size]: units *)
(* ================================================================== *)

Section ConvertSize.
Import PyStr PyNum.

Lemma float_char_differs (a c : ascii) :
  float_char a = false -> float_char c = true -> negb (Ascii.eqb a c) = true.
Proof.
  intros Ha Hc. apply negb_true_iff. destruct (Ascii.eqb a c) eqn:E; [|reflexivity].
  apply Ascii.eqb_eq in E. congruence.
Qed.






End ConvertSize.



(** C3.  The size normalizer raises on some malformed strings: when the
    string contains GB, MB or KB and what is left after removing the
    unit is no float literal, the inner [float] call raises ValueError,
    which nothing catches; only a string without a unit marker takes the
    branch that warns and returns 0. *)
Theorem convert_size_raises_on_malformed_unit_value (w : world) :
  convert_size (Str "abcGB") w = (w, Raise (ValueError "abc"))
  /\ convert_size (Str "1.5.2MB") w = (w, Raise (ValueError "1.5.2"))
  /\ convert_size (Str "KB") w = (w, Raise (ValueError ""))
  /\ convert_size (Str "abc") w
     = (mkWorld (df w) (cfg w)
          (events w ++ [Warning_unexpected_size_format "abc"]), Ok (Fin 0)).
Proof. repeat split. Qed.

(* ================================================================== *)
(** * Reasoning about runs *)
(* ================================================================== *)

Section Runs.

Lemma bind_ok {A B} (m : M A) (k : A -> M B) (w w1 : world) (a : A) :
  m w = (w1, Ok a) -> bind m k w = k a w1.
Proof. intros H. unfold bind. now rewrite H. Qed.

Lemma bind_inv_ok {A B} (m : M A) (k : A -> M B) (w w' : world) (b : B) :
  bind m k w = (w', Ok b) ->
  exists w1 a, m w = (w1, Ok a) /\ k a w1 = (w', Ok b).
Proof.
  unfold bind. destruct (m w) as [w1 [a|e|]]; intros H;
    try discriminate. now exists w1, a.
Qed.

End Runs.

(* ================================================================== *)
(** * Facts on numbers and columns *)
(* ================================================================== *)

Section NumFacts.
Import PyNum.

Lemma ltb_fin (a b : Q) : ltb (Fin a) (Fin b) = true <-> (a < b)%Q.
Proof.
  simpl. rewrite negb_true_iff. split; intros H.
  - apply Qnot_le_lt. intros Hle. apply Qle_bool_iff in Hle. congruence.
  - destruct (Qle_bool b a) eqn:E; [|reflexivity].
    apply Qle_bool_iff in E. exfalso. exact (Qlt_not_le _ _ H E).
Qed.

Lemma ltb_fin_false (a b : Q) : ltb (Fin a) (Fin b) = false <-> (b <= a)%Q.
Proof.
  simpl. rewrite negb_false_iff. apply Qle_bool_iff.
Qed.

Lemma ltb_irrefl (x : pyfloat) : ltb x x = false.
Proof.
  destruct x as [a| | |]; try reflexivity.
  apply ltb_fin_false. apply Qle_refl.
Qed.

(** [x <= y <= z] for numbers: the middle one is not [nan]. *)
Lemma not_gt_trans (x y z : pyfloat) :
  is_nan y = false -> gtb x y = false -> gtb y z = false -> gtb x z = false.
Proof.
  unfold gtb.
  destruct x as [a| | |], y as [b| | |], z as [c| | |];
    try reflexivity; try discriminate; intros _ H1 H2.
  apply ltb_fin_false in H1, H2. apply ltb_fin_false.
  eapply Qle_trans; eassumption.
Qed.





End NumFacts.

Section SeriesFacts.
Import PyNum.

Lemma filter_finite (col : list pyfloat) :
  forallb is_finite col = true -> filter Series.not_nan col = col.
Proof.
  induction col as [|x col IH]; simpl; [reflexivity|].
  intros H. apply andb_prop in H as [Hx Hc].
  destruct x; try discriminate. simpl. now rewrite IH.
Qed.

Lemma fold_add_finite (col : list pyfloat) :
  forallb is_finite col = true ->
  forall a, exists q, fold_left add col (Fin a) = Fin q.
Proof.
  induction col as [|x col IH]; simpl; intros H a.
  - now exists a.
  - apply andb_prop in H as [Hx Hc]. destruct x; try discriminate.
    simpl. apply IH. exact Hc.
Qed.

Lemma sum_finite (col : list pyfloat) :
  forallb is_finite col = true -> exists q, Series.sum col = Fin q.
Proof.
  intros H. unfold Series.sum. rewrite (filter_finite _ H).
  now apply fold_add_finite.
Qed.

Lemma fold_max_bound (l : list pyfloat) :
  forall m,
    forallb Series.not_nan l = true ->
    let r := fold_left Series.max_step l m in
    (is_nan m = false -> is_nan r = false /\ gtb m r = false)
    /\ (forall x, In x l -> is_nan r = false /\ gtb x r = false).
Proof.
  induction l as [|y l IH]; intros m Hl; simpl.
  - split; [|intros x []]. intros Hm. split; [exact Hm|].
    apply ltb_irrefl.
  - simpl in Hl. apply andb_prop in Hl as [Hy Hl].
    unfold Series.not_nan in Hy. apply negb_true_iff in Hy.
    destruct (IH (Series.max_step m y) Hl) as [IH1 IH2].
    assert (Hs : is_nan (Series.max_step m y) = false).
    { unfold Series.max_step. destruct (is_nan m) eqn:Em; [exact Hy|].
      destruct (gtb y m); assumption. }
    destruct (IH1 Hs) as [Hr1 Hr2].
    assert (Hmy : is_nan m = false -> gtb m (Series.max_step m y) = false).
    { intros Hm. unfold Series.max_step. rewrite Hm.
      destruct (gtb y m) eqn:E.
      - unfold gtb in *. destruct m as [a| | |], y as [b| | |];
          try reflexivity; try discriminate.
        apply ltb_fin in E. apply ltb_fin_false. now apply Qlt_le_weak.
      - apply ltb_irrefl. }
    assert (Hyy : gtb y (Series.max_step m y) = false).
    { unfold Series.max_step. destruct (is_nan m); [apply ltb_irrefl|].
      destruct (gtb y m) eqn:E; [apply ltb_irrefl | exact E]. }
    split.
    + intros Hm. split; [exact Hr1|].
      exact (not_gt_trans _ _ _ Hs (Hmy Hm) Hr2).
    + intros x [->|Hx].
      * split; [exact Hr1|]. exact (not_gt_trans _ _ _ Hs Hyy Hr2).
      * exact (IH2 x Hx).
Qed.

Lemma filter_not_nan_all (col : list pyfloat) :
  forallb Series.not_nan (filter Series.not_nan col) = true.
Proof.
  induction col as [|x col IH]; simpl; [reflexivity|].
  destruct (Series.not_nan x) eqn:E; simpl; [now rewrite E|exact IH].
Qed.

(** No entry of a column is larger than its [max()]. *)
Lemma max_upper_bound (col : list pyfloat) (x : pyfloat) :
  In x col -> gtb x (Series.max col) = false.
Proof.
  intros Hx. destruct (is_nan x) eqn:Hn.
  - destruct x; try discriminate. unfold gtb. now destruct (Series.max col).
  - assert (Hin : In x (filter Series.not_nan col)).
    { apply filter_In. split; [exact Hx|]. unfold Series.not_nan.
      now rewrite Hn. }
    pose proof (fold_max_bound _ NaN (filter_not_nan_all col)) as [_ H].
    exact (proj2 (H x Hin)).
Qed.

(** A number in the column makes [max()] a number. *)
Lemma max_not_nan (col : list pyfloat) (x : pyfloat) :
  In x col -> is_nan x = false -> is_nan (Series.max col) = false.
Proof.
  intros Hx Hn.
  assert (Hin : In x (filter Series.not_nan col)).
  { apply filter_In. split; [exact Hx|]. unfold Series.not_nan.
    now rewrite Hn. }
  pose proof (fold_max_bound _ NaN (filter_not_nan_all col)) as [_ H].
  exact (proj1 (H x Hin)).
Qed.

Lemma max_finite (col : list pyfloat) :
  forallb is_finite col = true ->
  Series.max col = NaN \/ exists q, Series.max col = Fin q.
Proof.
  intros H. unfold Series.max. rewrite (filter_finite _ H).
  assert (G : forall m, (m = NaN \/ exists q, m = Fin q) ->
              let r := fold_left Series.max_step col m in
              r = NaN \/ exists q, r = Fin q).
  { induction col as [|x col IH]; intros m Hm; simpl; [exact Hm|].
    simpl in H. apply andb_prop in H as [Hx Hc]. apply (IH Hc).
    unfold Series.max_step. destruct x as [a| | |]; try discriminate.
    destruct (is_nan m); [right; now exists a|].
    destruct (gtb (Fin a) m); [right; now exists a | exact Hm]. }
  apply (G NaN). now left.
Qed.

End SeriesFacts.

(* ================================================================== *)
(** * The overflow-adjustment loop *)
(* ================================================================== *)

Section Rounding.








(** Outside the binary64 numbers the float addition of line 90 rounds:
    the sum of 999999999.99999988 (the binary64 number) and 10^9 is
    10^9 twice, and on 100000000000000004764729344 (the binary64 number
    nearest to 10^26) the increment is absorbed. *)
Lemma nearest64_ties_to_even :
  (nearest64 ((8388607999999999 # 8388608) + increment) == 2000000000)%Q.
Proof. vm_compute. reflexivity. Qed.

Lemma nearest64_absorbs_increment :
  (nearest64 (100000000000000004764729344 + increment)
   == 100000000000000004764729344)%Q.
Proof. vm_compute. reflexivity. Qed.

(** The floor division rounds its quotient above 2^53. *)
Lemma floordiv_float_rounds :
  floordiv_float (Fin 999999999999999879147136483328) 1000000000
  = Fin 999999999999999868928.
Proof. vm_compute. reflexivity. Qed.

End Rounding.

Section Overflow.
Import PyNum.

Lemma logged_nil (w : world) : logged w [] = w.
Proof. destruct w. unfold logged. simpl. now rewrite app_nil_r. Qed.

Lemma logged_app (w : world) (es es' : list event) :
  logged (logged w es) es' = logged w (es ++ es').
Proof. unfold logged. simpl. now rewrite app_assoc. Qed.

Lemma overflow_loop_exit (fuel : nat) (m a : pyfloat) (w : world) :
  gtb m a = false -> overflow_loop fuel m a w = (w, Ok a).
Proof. intros H. destruct fuel; simpl; now rewrite H. Qed.

Lemma overflow_loop_pass (fuel : nat) (m a : pyfloat) (w : world) :
  gtb m a = true ->
  overflow_loop (S fuel) m a w
  = overflow_loop fuel m (add a (Fin increment))
      (logged w [Warning_empty_partition]).
Proof. intros H. simpl. now rewrite H. Qed.

Lemma overflow_loop_spec (fuel : nat) :
  forall m a w w' a',
    overflow_loop fuel m a w = (w', Ok a') ->
    exists k,
      (k <= fuel)%nat
      /\ a' = add_passes k a
      /\ (forall j, (j < k)%nat -> gtb m (add_passes j a) = true)
      /\ gtb m a' = false
      /\ w' = logged w (repeat Warning_empty_partition k).
Proof.
  induction fuel as [|fuel IH]; intros m a w w' a' H;
    destruct (gtb m a) eqn:E.
  - simpl in H. rewrite E in H. discriminate.
  - rewrite (overflow_loop_exit _ _ _ _ E) in H. inversion H; subst.
    exists 0%nat. repeat split; [lia | intros j Hj; lia | exact E |].
    now rewrite logged_nil.
  - rewrite (overflow_loop_pass _ _ _ _ E) in H.
    apply IH in H as (k & Hk & Ha & Hj & Hm & Hw).
    exists (S k). repeat split; [lia | exact Ha | | exact Hm |].
    + intros [|j] Hlt; [exact E|]. apply Hj. lia.
    + rewrite Hw, logged_app. reflexivity.
  - rewrite (overflow_loop_exit _ _ _ _ E) in H. inversion H; subst.
    exists 0%nat. repeat split; [lia | intros j Hj; lia | exact E |].
    now rewrite logged_nil.
Qed.

Lemma overflow_loop_terminates (mq : Q) :
  forall n aq,
    (mq - aq <= inject_Z (Z.of_nat n) * increment)%Q ->
    exists k,
      (k <= n)%nat
      /\ (forall j, (j < k)%nat -> gtb (Fin mq) (add_passes j (Fin aq)) = true)
      /\ gtb (Fin mq) (add_passes k (Fin aq)) = false
      /\ forall fuel w, (k <= fuel)%nat ->
           overflow_loop fuel (Fin mq) (Fin aq) w
           = (logged w (repeat Warning_empty_partition k),
              Ok (add_passes k (Fin aq))).
Proof.
  induction n as [|n IH]; intros aq Hn;
    destruct (gtb (Fin mq) (Fin aq)) eqn:E.
  - exfalso. apply ltb_fin in E.
    change (inject_Z (Z.of_nat 0)) with 0%Q in Hn. lra.
  - exists 0%nat. repeat split; [lia | intros j Hj; lia | exact E |].
    intros fuel w _. now rewrite (overflow_loop_exit _ _ _ _ E), logged_nil.
  - destruct (IH (aq + increment)%Q) as (k & Hk & Hj & Hm & Hrun).
    { rewrite Nat2Z.inj_succ in Hn. unfold Z.succ in Hn.
      rewrite inject_Z_plus in Hn. change (inject_Z 1) with 1%Q in Hn.
      lra. }
    exists (S k). repeat split; [lia | | exact Hm |].
    + intros [|j] Hlt; [exact E|]. apply Hj. lia.
    + intros [|fuel] w Hf; [lia|].
      rewrite (overflow_loop_pass _ _ _ _ E).
      change (add (Fin aq) (Fin increment)) with (Fin (aq + increment)).
      rewrite Hrun by lia. now rewrite logged_app.
  - exists 0%nat. repeat split; [lia | intros j Hj; lia | exact E |].
    intros fuel w _. now rewrite (overflow_loop_exit _ _ _ _ E), logged_nil.
Qed.

Lemma passes_bound (mq aq : Q) :
  exists n, (mq - aq <= inject_Z (Z.of_nat n) * increment)%Q.
Proof.
  exists (Z.to_nat (Qceiling (mq - aq))).
  pose proof (Qle_ceiling (mq - aq)) as Hc.
  assert (Hz : (inject_Z (Qceiling (mq - aq))
                <= inject_Z (Z.of_nat (Z.to_nat (Qceiling (mq - aq)))))%Q).
  { rewrite <- Zle_Qle. lia. }
  assert (H0 : (0 <= inject_Z (Z.of_nat (Z.to_nat (Qceiling (mq - aq)))))%Q).
  { change 0%Q with (inject_Z 0). rewrite <- Zle_Qle. lia. }
  unfold increment. lra.
Qed.

(** The loop on a finite maximum and a finite threshold: it makes [k]
    passes and stops, for every sufficient fuel. *)
Lemma overflow_loop_finite (mq aq : Q) :
  exists k,
    (forall j, (j < k)%nat -> gtb (Fin mq) (add_passes j (Fin aq)) = true)
    /\ gtb (Fin mq) (add_passes k (Fin aq)) = false
    /\ forall fuel w, (k <= fuel)%nat ->
         overflow_loop fuel (Fin mq) (Fin aq) w
         = (logged w (repeat Warning_empty_partition k),
            Ok (add_passes k (Fin aq))).
Proof.
  destruct (passes_bound mq aq) as (n & Hn).
  destruct (overflow_loop_terminates mq n aq Hn) as (k & _ & H).
  now exists k.
Qed.

Lemma overflow_adjust_spec (fuel : nat) (m a : pyfloat) (w w' : world)
  (a' : pyfloat) :
  overflow_adjust fuel m a w = (w', Ok a') ->
  exists k,
    a' = add_passes k a
    /\ (forall j, (j < k)%nat -> gtb m (add_passes j a) = true)
    /\ gtb m a' = false
    /\ w' = logged w (adjust_log k a).
Proof.
  unfold overflow_adjust. destruct (gtb m a) eqn:E; intros H.
  - apply overflow_loop_spec in H as (k & _ & Ha & Hj & Hm & Hw).
    exists k. repeat split; try assumption.
    destruct k as [|k]; [|exact Hw].
    change (add_passes 0 a) with a in Ha. subst a'. congruence.
  - inversion H; subst. exists 0%nat.
    repeat split; [intros j Hj; lia | exact E].
Qed.

Lemma overflow_adjust_finite (mq aq : Q) :
  exists k,
    (forall j, (j < k)%nat -> gtb (Fin mq) (add_passes j (Fin aq)) = true)
    /\ gtb (Fin mq) (add_passes k (Fin aq)) = false
    /\ forall fuel w, (k <= fuel)%nat ->
         overflow_adjust fuel (Fin mq) (Fin aq) w
         = (logged w (adjust_log k (Fin aq)), Ok (add_passes k (Fin aq))).
Proof.
  destruct (overflow_loop_finite mq aq) as (k & Hj & Hm & Hrun).
  exists k. repeat split; [exact Hj | exact Hm |].
  intros fuel w Hf. unfold overflow_adjust.
  destruct (gtb (Fin mq) (Fin aq)) eqn:E.
  - rewrite Hrun by exact Hf. destruct k as [|k]; [|reflexivity].
    change (add_passes 0 (Fin aq)) with (Fin aq) in Hm. congruence.
  - destruct k as [|k]; [reflexivity|].
    pose proof (Hj 0%nat ltac:(lia)) as H0.
    change (add_passes 0 (Fin aq)) with (Fin aq) in H0. congruence.
Qed.

Lemma overflow_adjust_nan (fuel : nat) (a : pyfloat) (w : world) :
  overflow_adjust fuel NaN a w = (logged w (adjust_log 0 a), Ok a).
Proof.
  unfold overflow_adjust, gtb.
  now replace (ltb a NaN) with false by now destruct a.
Qed.





End Overflow.







(* ================================================================== *)
(** * The preparation phase *)
(* ================================================================== *)

Section Prepare.

Lemma convert_size_log (c : cell) (w w' : world) (o : outcome pyfloat) :
  convert_size c w = (w', o) -> exists ss, w' = logged w (warnings ss).
Proof.
  assert (Hnil : forall (x : outcome pyfloat), (w, x) = (w', o) ->
                 exists ss, w' = logged w (warnings ss)).
  { intros x H. inversion H; subst. exists []. now rewrite logged_nil. }
  unfold convert_size. destruct (isna c); [apply Hnil|].
  destruct c as [|s|x]; try apply Hnil.
  destruct (PyNum.py_float (PyStr.strip s)); [apply Hnil|].
  unfold convert_units, float_of, bind, from_option, ret, raise.
  repeat match goal with
         | |- context [if ?b then _ else _] => destruct b
         | |- context [match PyNum.py_float ?x with _ => _ end] =>
             destruct (PyNum.py_float x)
         end; try apply Hnil.
  simpl. intros H. inversion H; subst. now exists [PyStr.strip s].
Qed.

Lemma apply_convert_size_log (column : list cell) :
  forall w w' o,
    apply_convert_size column w = (w', o) ->
    (exists ss, w' = logged w (warnings ss))
    /\ (forall xs, o = Ok xs -> List.length xs = List.length column).
Proof.
  induction column as [|c rest IH]; intros w w' o; simpl.
  - intros H. inversion H; subst. split.
    + exists []. now rewrite logged_nil.
    + intros xs Hxs. now inversion Hxs.
  - unfold bind at 1.
    destruct (convert_size c w) as [w1 o1] eqn:Ec.
    apply convert_size_log in Ec as (ss1 & ->).
    destruct o1 as [x|e|]; try (intros H; inversion H; subst; split;
      [now exists ss1 | intros xs Hxs; discriminate]).
    unfold bind.
    destruct (apply_convert_size rest (logged w (warnings ss1)))
      as [w2 o2] eqn:Er.
    apply IH in Er as [(ss2 & ->) Hlen].
    assert (Hw : logged (logged w (warnings ss1)) (warnings ss2)
                 = logged w (warnings (ss1 ++ ss2))).
    { unfold warnings. now rewrite logged_app, map_app. }
    destruct o2 as [xs|e|]; intros H; inversion H; subst; split;
      try (exists (ss1 ++ ss2)%list; exact Hw); try (intros ? ?; discriminate).
    intros ys Hys. inversion Hys; subst. simpl. f_equal. now apply Hlen.
Qed.

Lemma floordiv_nonzero (at_ : division) (a b : Z) (w : world) :
  b <> 0 -> floordiv at_ a b w = (w, Ok (a / b)).
Proof.
  intros Hb. unfold floordiv. destruct (b =? 0)%Z eqn:E; [lia|reflexivity].
Qed.

(** [prepare] in one piece, once the two steps that may fail are known
    to succeed. *)
Lemma prepare_run (fuel : nat) (w : world) (ss : list string)
  (sizes : list pyfloat) (es : list event) (avg : pyfloat) :
  cpu_per_node (cfg w) <> 0 ->
  apply_convert_size (map run_1_size (df w)) w
  = (logged w (warnings ss), Ok sizes) ->
  (forall w0,
      overflow_adjust fuel (Series.max (disk_reqs sizes))
        (PyNum.div_int (Series.sum (disk_reqs sizes))
           (max_cpu_request (cfg w) / cpu_per_node (cfg w))) w0
      = (logged w0 es, Ok avg)) ->
  prepare fuel w
  = (mkWorld (with_sizes (df w) sizes) (cfg w)
       (events w ++ warnings ss ++ es ++ storage_reset (cfg w)),
     Ok (max_cpu_request (cfg w) / cpu_per_node (cfg w), avg,
         Series.sort_desc snd (items_of (df w) sizes))).
Proof.
  intros Hcpu Hconv Hadj. unfold prepare.
  unfold bind at 1. unfold get_configs.
  unfold bind at 1. rewrite (floordiv_nonzero _ _ _ _ Hcpu).
  unfold bind at 1. unfold get_df.
  unfold bind at 1. rewrite Hconv.
  unfold bind at 1. unfold set_df.
  unfold bind at 1. rewrite Hadj.
  unfold bind, emit, ret, logged, storage_reset. simpl.
  repeat rewrite <- app_assoc. reflexivity.
Qed.

(** Every successful run of [prepare] has this shape. *)
Lemma prepare_ok_inv (fuel : nat) (w w1 : world) (nodes : Z)
  (avg : pyfloat) (sorted : list item) :
  prepare fuel w = (w1, Ok (nodes, avg, sorted)) ->
  exists ss sizes k,
    cpu_per_node (cfg w) <> 0
    /\ nodes = max_cpu_request (cfg w) / cpu_per_node (cfg w)
    /\ apply_convert_size (map run_1_size (df w)) w
       = (logged w (warnings ss), Ok sizes)
    /\ List.length sizes = List.length (df w)
    /\ avg = add_passes k
               (PyNum.div_int (Series.sum (disk_reqs sizes)) nodes)
    /\ PyNum.gtb (Series.max (disk_reqs sizes)) avg = false
    /\ sorted = Series.sort_desc snd (items_of (df w) sizes)
    /\ w1 = mkWorld (with_sizes (df w) sizes) (cfg w)
              (events w ++ warnings ss
               ++ adjust_log k
                    (PyNum.div_int (Series.sum (disk_reqs sizes)) nodes)
               ++ storage_reset (cfg w)).
Proof.
  unfold prepare. unfold bind at 1. unfold get_configs.
  unfold bind at 1. unfold floordiv.
  destruct (cpu_per_node (cfg w) =? 0)%Z eqn:Ecpu; [discriminate|].
  unfold ret at 1. unfold bind at 1. unfold get_df.
  unfold bind at 1.
  destruct (apply_convert_size (map run_1_size (df w)) w)
    as [w2 o2] eqn:Econv.
  pose proof (apply_convert_size_log _ _ _ _ Econv) as [(ss & ->) Hlen].
  destruct o2 as [sizes|e|]; try discriminate.
  specialize (Hlen sizes eq_refl). rewrite length_map in Hlen.
  unfold bind at 1. unfold set_df.
  unfold bind at 1.
  match goal with
  | |- context [overflow_adjust fuel ?m ?a ?w0] =>
      destruct (overflow_adjust fuel m a w0) as [w3 o3] eqn:Eadj
  end.
  destruct o3 as [avg'|e|]; try discriminate.
  apply overflow_adjust_spec in Eadj as (k & Havg & _ & Hexit & ->).
  unfold bind, emit, ret, logged. simpl. intros H. inversion H; subst.
  exists ss, sizes, k. repeat split; try assumption; try reflexivity.
  - lia.
  - repeat rewrite <- app_assoc. reflexivity.
Qed.

End Prepare.

(* ================================================================== *)
(** * The partition loop *)
(* ================================================================== *)

Section Partition.
Import PyNum.

Variable avg : pyfloat.

Lemma written_ids_app (es es' : list event) :
  written_ids (es ++ es') = (written_ids es ++ written_ids es')%list.
Proof.
  induction es as [|e es IH]; [reflexivity|].
  destruct e; simpl; rewrite IH; try reflexivity.
  now rewrite app_assoc.
Qed.

Lemma groups_written_app (es es' : list event) :
  groups_written (es ++ es') = (groups_written es + groups_written es')%nat.
Proof.
  induction es as [|e es IH]; [reflexivity|].
  destruct e; simpl; now rewrite IH.
Qed.

Lemma iloc_last_app (l : list item) (x : item) (w : world) :
  iloc_last (l ++ [x]) w = (w, Ok x).
Proof. unfold iloc_last. now rewrite rev_app_distr. Qed.

Lemma drop_last_app (l : list item) (x : item) : drop_last (l ++ [x]) = l.
Proof. apply removelast_last. Qed.

(** The accepting branch: the last row [x] joins the group, and the
    weight added to [node_size] is that of [y], the row before it. *)
Lemma partition_step_accept (l : list item) (y x : item) (g : nat)
  (cg : list string) (ag : list nat) (ns : pyfloat) (w : world) :
  is_zero ns = false ->
  ltb (add ns (snd x)) avg = true ->
  partition_step avg (mkLocals (l ++ [y; x]) g cg ag ns) w
  = (logged w [Info_group g (snd x)],
     Ok (mkLocals (l ++ [y]) g (cg ++ [fst x]) ag (add ns (snd y)),
         Continue)).
Proof.
  intros Hns Hlt. unfold partition_step. simpl.
  replace (List.length (l ++ [y; x]) =? 1)%nat with false
    by (rewrite length_app; simpl; symmetry; apply Nat.eqb_neq; lia).
  rewrite Hns.
  replace (l ++ [y; x])%list with ((l ++ [y]) ++ [x])%list
    by now rewrite <- app_assoc.
  unfold bind at 1. rewrite iloc_last_app, Hlt.
  unfold bind at 1. unfold emit at 1.
  rewrite drop_last_app. unfold bind at 1. now rewrite iloc_last_app.
Qed.

(** One pass on a non-empty [df_sorted]: it raises nothing, writes as
    many files as it adds to [all_groups], moves or drops rows without
    inventing any, and makes progress. *)
Lemma partition_step_run (v : locals) (w : world) :
  df_sorted v <> [] ->
  exists es v' f,
    partition_step avg v w = (logged w es, Ok (v', f))
    /\ (groups_written es + List.length (all_groups v)
        = List.length (all_groups v'))%nat
    /\ (List.length (written_ids es) + List.length (curr_group v')
        + List.length (df_sorted v') + lost f
        = List.length (curr_group v) + List.length (df_sorted v))%nat
    /\ (f = Continue -> df_sorted v' <> [] /\ (progress v' < progress v)%nat)
    /\ (f = Break -> all_groups v' = all_groups v /\ es <> []
                     /\ written_ids es = []).
Proof.
  destruct v as [seq g cg ag ns]. simpl. intros Hseq.
  unfold partition_step, progress. simpl.
  destruct seq as [|it [|it2 rest]]; [contradiction| |].
  - (* one row left *)
    simpl. do 3 eexists. split; [reflexivity|]. simpl.
    repeat split; try lia; try discriminate.
  - change (List.length (it :: it2 :: rest) =? 1)%nat with false.
    cbv iota. destruct (is_zero ns) eqn:Ens.
    + (* seed *)
      simpl. do 3 eexists. split; [reflexivity|]. simpl.
      rewrite length_app. simpl.
      repeat split; try lia; try discriminate.
      destruct (is_zero (add ns (snd it))); lia.
    + destruct (exists_last (l := it :: it2 :: rest)) as (l' & x & El);
        [discriminate|].
      destruct l' as [|y0 l0] using rev_ind.
      { destruct rest; discriminate. }
      clear IHl0. rewrite El.
      unfold bind at 1. rewrite iloc_last_app.
      destruct (ltb (add ns (snd x)) avg).
      * (* append *)
        unfold bind at 1. unfold emit at 1.
        rewrite drop_last_app. unfold bind at 1. rewrite iloc_last_app.
        do 3 eexists. split; [reflexivity|]. simpl.
        rewrite !length_app. simpl.
        repeat split; try lia; try discriminate.
        -- destruct l0; discriminate.
        -- destruct (is_zero (add ns (snd y0))); lia.
      * (* close the group *)
        exists [Write_group (S g) cg; Info_group_size_exceeded].
        do 2 eexists.
        split; [unfold bind, emit, ret, logged; simpl;
                rewrite <- app_assoc; reflexivity|]. simpl.
        rewrite !length_app. simpl. rewrite app_nil_r.
        repeat split; try lia; try discriminate.
        destruct l0; discriminate.
Qed.

(** Every run of the loop: nothing is raised; at least one row is
    never written when there are rows; with enough fuel it ends. *)
Lemma partition_loop_run (fuel : nat) :
  forall v w,
  exists es o,
    partition_loop fuel avg v w = (logged w es, o)
    /\ (forall e, o <> Raise e)
    /\ (List.length (written_ids es)
        + match df_sorted v with [] => 0 | _ :: _ => 1 end
        <= List.length (curr_group v) + List.length (df_sorted v))%nat
    /\ (forall v', o = Ok v' ->
          (groups_written es + List.length (all_groups v)
           = List.length (all_groups v'))%nat)
    /\ ((progress v < fuel)%nat -> exists v', o = Ok v').
Proof.
  induction fuel as [|fuel IH]; intros v w.
  - destruct (df_sorted v) as [|it l] eqn:E.
    + exists [], (Ok v). simpl. rewrite E, logged_nil. simpl.
      repeat split; try discriminate; try lia;
        try (intros v' H; now inversion H); try (intros _; now exists v).
    + exists [], OutOfFuel. simpl. rewrite E, logged_nil. simpl.
      repeat split; try discriminate; try lia.
  - destruct (df_sorted v) as [|it l] eqn:E.
    + exists [], (Ok v). simpl. rewrite E, logged_nil. simpl.
      repeat split; try discriminate; try lia;
        try (intros v' H; now inversion H); try (intros _; now exists v).
    + assert (Hne : df_sorted v <> []) by (rewrite E; discriminate).
      destruct (partition_step_run v w Hne)
        as (es1 & v1 & f & Hstep & Hg & Hc & Hcont & Hbrk).
      cbn [partition_loop]. rewrite E.
      change (0 <? List.length (it :: l))%nat with true. cbv iota.
      rewrite (bind_ok _ _ _ _ _ Hstep). cbn [fst snd].
      destruct f.
      * destruct (Hcont eq_refl) as [Hne1 Hprog].
        destruct (IH v1 (logged w es1)) as (es2 & o & Hrun & Hr & Hw & Ho & Ht).
        exists (es1 ++ es2)%list, o. rewrite Hrun, logged_app.
        repeat split; try assumption.
        -- rewrite written_ids_app, length_app.
           destruct (df_sorted v1) eqn:E1; [contradiction|].
           rewrite E in Hc. simpl in *. lia.
        -- intros v' Hv'. rewrite groups_written_app.
           specialize (Ho v' Hv'). lia.
        -- intros Hf. apply Ht. lia.
      * exists es1, (Ok v1). unfold ret.
        repeat split; try discriminate.
        -- rewrite E in Hc. destruct (Hbrk eq_refl) as (_ & _ & Hnone).
           rewrite Hnone. simpl in *. lia.
        -- intros v' Hv'. inversion Hv'; subst. exact Hg.
        -- intros _. now exists v1.
Qed.

End Partition.

(* ================================================================== *)
(** * Whole runs *)
(* ================================================================== *)

Section WholeRuns.
Import PyNum.

Lemma insert_desc_length {A} (key : A -> pyfloat) (r : A) (l : list A) :
  List.length (Series.insert_desc key r l) = S (List.length l).
Proof.
  induction l as [|r' l IH]; simpl; [reflexivity|].
  destruct (Series.before (key r') (key r)); simpl; now rewrite ?IH.
Qed.

Lemma sort_desc_length {A} (key : A -> pyfloat) (l : list A) :
  List.length (Series.sort_desc key l) = List.length l.
Proof.
  induction l as [|r l IH]; simpl; [reflexivity|].
  now rewrite insert_desc_length, IH.
Qed.

Lemma items_of_length (d : list row) (sizes : list pyfloat) :
  List.length sizes = List.length d ->
  List.length (items_of d sizes) = List.length d.
Proof.
  intros H. unfold items_of, disk_reqs, item.
  rewrite length_combine, !length_map. lia.
Qed.

Lemma with_sizes_ids (d : list row) :
  forall sizes, List.length sizes = List.length d ->
                input_ids (with_sizes d sizes) = input_ids d.
Proof.
  induction d as [|r d IH]; intros [|x sizes] H; try discriminate;
    [reflexivity|].
  simpl in H. injection H as H. unfold with_sizes, input_ids in *.
  simpl. f_equal. now apply IH.
Qed.

Lemma warnings_silent (ss : list string) :
  written_ids (warnings ss) = [] /\ groups_written (warnings ss) = 0%nat.
Proof. induction ss as [|x ss [IH1 IH2]]; simpl; auto. Qed.

Lemma repeat_warning_silent (k : nat) :
  written_ids (repeat Warning_empty_partition k) = []
  /\ groups_written (repeat Warning_empty_partition k) = 0%nat.
Proof. induction k as [|k [IH1 IH2]]; simpl; auto. Qed.

Lemma adjust_log_silent (k : nat) (a : pyfloat) :
  written_ids (adjust_log k a) = [] /\ groups_written (adjust_log k a) = 0%nat.
Proof.
  destruct k as [|k]; [simpl; auto|]. apply (repeat_warning_silent (S k)).
Qed.

(** The log of a successful [prepare] names no group file. *)
Lemma prepare_log_silent (ss : list string) (k : nat) (a : pyfloat)
  (c : configs) :
  let es := (warnings ss ++ adjust_log k a ++ storage_reset c)%list in
  written_ids es = [] /\ groups_written es = 0%nat.
Proof.
  simpl. rewrite !written_ids_app, !groups_written_app.
  destruct (warnings_silent ss) as [-> ->].
  destruct (adjust_log_silent k a) as [-> ->]. simpl. auto.
Qed.

Lemma balance_nodes_after_prepare (fuel : nat) (w w1 : world) (nodes : Z)
  (avg : pyfloat) (sorted : list item) :
  prepare fuel w = (w1, Ok (nodes, avg, sorted)) ->
  balance_nodes fuel w
  = bind (partition fuel avg sorted) (finish nodes avg) w1.
Proof.
  intros H. unfold balance_nodes. now rewrite (bind_ok _ _ _ _ _ H).
Qed.

Lemma partition_run (fuel : nat) (avg : pyfloat) (sorted : list item)
  (w : world) :
  exists es o,
    partition fuel avg sorted w = (logged w es, o)
    /\ (forall e, o <> Raise e)
    /\ (List.length (written_ids es)
        + match sorted with [] => 0 | _ :: _ => 1 end
        <= List.length sorted)%nat
    /\ (forall v, o = Ok v -> groups_written es = List.length (all_groups v))
    /\ ((2 * List.length sorted < fuel)%nat -> exists v, o = Ok v).
Proof.
  destruct (partition_loop_run avg fuel (entry sorted) w)
    as (es & o & Hrun & Hr & Hw & Hg & Ht).
  unfold partition. unfold bind at 1. rewrite Hrun. simpl in *.
  destruct o as [v|e|].
  - exists (es ++ [Write_queue (all_groups v)])%list, (Ok v).
    unfold bind, emit, ret. simpl. rewrite <- app_assoc.
    repeat split; try discriminate.
    + rewrite written_ids_app, length_app. simpl. lia.
    + intros v' Hv'. inversion Hv'; subst.
      rewrite groups_written_app. simpl. specialize (Hg v' eq_refl). lia.
    + intros _. now exists v.
  - now destruct (Hr e).
  - exists es, OutOfFuel. repeat split; try discriminate; try assumption.
    intros Hf. destruct Ht as (v' & Hv'); [unfold progress; simpl; lia|].
    discriminate.
Qed.

Lemma finish_no_group (nodes : Z) (avg : pyfloat) (v : locals) (w : world) :
  all_groups v = [] ->
  finish nodes avg v w = (w, Raise (ZeroDivisionError CpuReallocation)).
Proof. intros H. unfold finish. rewrite H. reflexivity. Qed.

Lemma reallocate_cpu_rule (nodes : Z) (groups : nat) (base : Z) (w : world) :
  groups <> 0%nat ->
  reallocate_cpu nodes groups base w
  = (w, Ok (if (2 <=? nodes / Z.of_nat groups)%Z then 2 * base else base)).
Proof.
  intros Hg. unfold reallocate_cpu.
  assert (Hz : Z.of_nat groups <> 0) by lia.
  rewrite (bind_ok _ _ _ _ _
             (floordiv_nonzero CpuReallocation nodes _ w Hz)).
  now destruct (2 <=? nodes / Z.of_nat groups)%Z.
Qed.

Lemma finish_ok_inv (nodes : Z) (avg : pyfloat) (v : locals) (w w' : world)
  (c : configs) :
  finish nodes avg v w = (w', Ok c) ->
  all_groups v <> []
  /\ c = mkConfigs (max_cpu_request (cfg w))
           (if (2 <=? nodes / Z.of_nat (List.length (all_groups v)))%Z
            then 2 * cpu_per_node (cfg w) else cpu_per_node (cfg w))
           (Some avg) (sra_list_folder (cfg w)) (sra_query_file (cfg w))
  /\ w' = mkWorld (df w) c (events w ++ [Write_submit_configs c]).
Proof.
  destruct (all_groups v) as [|g gs] eqn:E.
  - rewrite (finish_no_group _ _ _ _ E). discriminate.
  - unfold finish. unfold bind at 1. unfold get_configs.
    assert (Hg : List.length (all_groups v) <> 0%nat)
      by (rewrite E; discriminate).
    rewrite (bind_ok _ _ _ _ _
               (reallocate_cpu_rule nodes _ (cpu_per_node (cfg w)) w Hg)).
    rewrite E. unfold bind, set_configs, emit, ret. simpl.
    intros H. inversion H; subst. repeat split. discriminate.
Qed.

Lemma overflow_loop_log (fuel : nat) :
  forall m a w w' o,
    overflow_loop fuel m a w = (w', o) ->
    exists k, w' = logged w (repeat Warning_empty_partition k).
Proof.
  induction fuel as [|fuel IH]; intros m a w w' o; simpl;
    destruct (gtb m a); intros H.
  - inversion H; subst. exists 0%nat. now rewrite logged_nil.
  - inversion H; subst. exists 0%nat. now rewrite logged_nil.
  - unfold bind, emit in H. apply IH in H as (k & ->).
    exists (S k). fold (logged w [Warning_empty_partition]).
    now rewrite logged_app.
  - inversion H; subst. exists 0%nat. now rewrite logged_nil.
Qed.

Lemma overflow_adjust_log (fuel : nat) (m a : pyfloat) (w w' : world)
  (o : outcome pyfloat) :
  overflow_adjust fuel m a w = (w', o) ->
  exists es, w' = logged w es /\ written_ids es = []
             /\ groups_written es = 0%nat.
Proof.
  unfold overflow_adjust. destruct (gtb m a); intros H.
  - apply overflow_loop_log in H as (k & ->).
    exists (repeat Warning_empty_partition k).
    split; [reflexivity | apply repeat_warning_silent].
  - inversion H; subst. exists [Success_proceeding a]. now repeat split.
Qed.

(** Every run of [prepare]: the configuration is untouched, the rows
    keep their accessions, and no group file is written. *)
Lemma prepare_any (fuel : nat) (w w1 : world)
  (o : outcome (Z * pyfloat * list item)) :
  prepare fuel w = (w1, o) ->
  cfg w1 = cfg w
  /\ input_ids (df w1) = input_ids (df w)
  /\ exists es, events w1 = (events w ++ es)%list /\ written_ids es = []
                /\ groups_written es = 0%nat.
Proof.
  assert (Hnil : exists es, events w = (events w ++ es)%list
                            /\ written_ids es = []
                            /\ groups_written es = 0%nat).
  { exists []. now rewrite app_nil_r. }
  unfold prepare. unfold bind at 1. unfold get_configs.
  unfold bind at 1. unfold floordiv.
  destruct (cpu_per_node (cfg w) =? 0)%Z.
  { intros H. inversion H; subst. auto. }
  unfold ret at 1. unfold bind at 1. unfold get_df. unfold bind at 1.
  destruct (apply_convert_size (map run_1_size (df w)) w)
    as [w2 o2] eqn:Econv.
  pose proof (apply_convert_size_log _ _ _ _ Econv) as [(ss & ->) Hlen].
  assert (Hss : exists es, events (logged w (warnings ss))
                           = (events w ++ es)%list
                           /\ written_ids es = []
                           /\ groups_written es = 0%nat).
  { exists (warnings ss). split; [reflexivity | apply warnings_silent]. }
  destruct o2 as [sizes|e|];
    [|intros H; inversion H; subst; auto..].
  specialize (Hlen sizes eq_refl). rewrite length_map in Hlen.
  unfold bind at 1. unfold set_df. unfold bind at 1.
  match goal with
  | |- context [overflow_adjust fuel ?m ?a ?w0] =>
      destruct (overflow_adjust fuel m a w0) as [w3 o3] eqn:Eadj
  end.
  apply overflow_adjust_log in Eadj as (es & -> & Hes1 & Hes2).
  assert (Hadj : exists es', ((events w ++ warnings ss) ++ es
                              = events w ++ es')%list
                             /\ written_ids es' = []
                             /\ groups_written es' = 0%nat).
  { exists (warnings ss ++ es)%list. rewrite app_assoc.
    rewrite written_ids_app, groups_written_app, Hes1, Hes2.
    destruct (warnings_silent ss) as [-> ->]. auto. }
  destruct o3 as [avg|e|]; intros H.
  - unfold bind, emit, ret in H. simpl in H. inversion H; subst. simpl.
    repeat split; [now apply with_sizes_ids|].
    destruct Hadj as (es' & He & Hw & Hg).
    exists (es' ++ storage_reset (cfg w))%list.
    rewrite He, written_ids_app, groups_written_app, Hw, Hg.
    rewrite <- !app_assoc. now repeat split.
  - inversion H; subst. simpl.
    repeat split; [now apply with_sizes_ids | exact Hadj].
  - inversion H; subst. simpl.
    repeat split; [now apply with_sizes_ids | exact Hadj].
Qed.

(** [finish] either raises at the reallocation and changes nothing, or
    updates the two entries of the configuration and writes it out. *)
Lemma finish_run (nodes : Z) (avg : pyfloat) (v : locals) (w : world) :
  (all_groups v = []
   /\ finish nodes avg v w = (w, Raise (ZeroDivisionError CpuReallocation)))
  \/ (exists c,
        all_groups v <> []
        /\ c = mkConfigs (max_cpu_request (cfg w))
                 (if (2 <=? nodes / Z.of_nat (List.length (all_groups v)))%Z
                  then 2 * cpu_per_node (cfg w) else cpu_per_node (cfg w))
                 (Some avg) (sra_list_folder (cfg w))
                 (sra_query_file (cfg w))
        /\ finish nodes avg v w
           = (mkWorld (df w) c (events w ++ [Write_submit_configs c]), Ok c)).
Proof.
  destruct (all_groups v) as [|g gs] eqn:E.
  - left. split; [reflexivity | now apply finish_no_group].
  - right. eexists. split; [discriminate|]. split; [reflexivity|].
    unfold finish. unfold bind at 1. unfold get_configs.
    assert (Hg : List.length (all_groups v) <> 0%nat)
      by (rewrite E; discriminate).
    rewrite (bind_ok _ _ _ _ _
               (reallocate_cpu_rule nodes _ (cpu_per_node (cfg w)) w Hg)).
    rewrite E. reflexivity.
Qed.

Lemma disk_reqs_finite (sizes : list pyfloat) :
  forallb is_finite sizes = true ->
  forallb is_finite (disk_reqs sizes) = true.
Proof.
  induction sizes as [|x sizes IH]; simpl; [trivial|].
  intros H. apply andb_prop in H as [Hx Hs].
  destruct x; try discriminate. simpl. now apply IH.
Qed.

(** On finite sizes and a node count other than 0 the preparation
    ends normally, for every sufficient fuel. *)
Lemma prepare_terminates (w : world) (ss : list string)
  (sizes : list pyfloat) :
  cpu_per_node (cfg w) <> 0 ->
  max_cpu_request (cfg w) / cpu_per_node (cfg w) <> 0 ->
  apply_convert_size (map run_1_size (df w)) w
  = (logged w (warnings ss), Ok sizes) ->
  forallb is_finite sizes = true ->
  exists k, forall fuel, (k <= fuel)%nat ->
    exists w1 avg,
      prepare fuel w
      = (w1, Ok (max_cpu_request (cfg w) / cpu_per_node (cfg w), avg,
                 Series.sort_desc snd (items_of (df w) sizes))).
Proof.
  intros Hcpu Hnodes Hconv Hfin.
  apply disk_reqs_finite in Hfin.
  destruct (sum_finite _ Hfin) as (sq & Hsum).
  set (nodes := max_cpu_request (cfg w) / cpu_per_node (cfg w)) in *.
  assert (Ha0 : div_int (Series.sum (disk_reqs sizes)) nodes
                = Fin (sq / inject_Z nodes)).
  { rewrite Hsum. simpl. destruct (nodes =? 0)%Z eqn:E; [lia|reflexivity]. }
  destruct (max_finite _ Hfin) as [Hm | (mq & Hm)].
  - exists 0%nat. intros fuel _. do 2 eexists.
    apply (prepare_run fuel w ss sizes); try assumption.
    intros w0. fold nodes. rewrite Hm. apply overflow_adjust_nan.
  - destruct (overflow_adjust_finite mq (sq / inject_Z nodes))
      as (k & _ & _ & Hrun).
    exists k. intros fuel Hf. do 2 eexists.
    apply (prepare_run fuel w ss sizes); try assumption.
    intros w0. fold nodes. rewrite Hm, Ha0. now apply Hrun.
Qed.

Lemma balance_nodes_ok_inv (fuel : nat) (w w' : world) (c : configs) :
  balance_nodes fuel w = (w', Ok c) ->
  exists w1 nodes avg sorted w2 v,
    prepare fuel w = (w1, Ok (nodes, avg, sorted))
    /\ partition fuel avg sorted w1 = (w2, Ok v)
    /\ finish nodes avg v w2 = (w', Ok c).
Proof.
  unfold balance_nodes. intros H.
  apply bind_inv_ok in H as (w1 & [[nodes avg] sorted] & Hprep & H).
  apply bind_inv_ok in H as (w2 & v & Hpart & Hfin).
  now exists w1, nodes, avg, sorted, w2, v.
Qed.

End WholeRuns.

Section Frame.

(** Every run of [balance_nodes], whatever its outcome: the rows keep
    their accessions; what is written leaves out at least one row of a
    non-empty DataFrame; the configuration changes only when the run
    returns, and then only in [cpu_per_node] and [disk_request]. *)
Lemma balance_nodes_run (fuel : nat) (w w' : world) (o : outcome configs) :
  balance_nodes fuel w = (w', o) ->
  input_ids (df w') = input_ids (df w)
  /\ (exists es,
        events w' = (events w ++ es)%list
        /\ (List.length (written_ids es)
            + match df w with [] => 0 | _ :: _ => 1 end
            <= List.length (df w))%nat)
  /\ same_static (cfg w) (cfg w')
  /\ ((forall c, o <> Ok c) -> cfg w' = cfg w).
Proof.
  assert (Hstatic : same_static (cfg w) (cfg w)) by now repeat split.
  unfold balance_nodes. unfold bind at 1.
  destruct (prepare fuel w) as [w1 o1] eqn:Hprep.
  destruct (prepare_any _ _ _ _ Hprep)
    as (Hcfg1 & Hids1 & es1 & Hev1 & Hsil1 & _).
  assert (Hearly : exists es,
             events w1 = (events w ++ es)%list
             /\ (List.length (written_ids es)
                 + match df w with [] => 0 | _ :: _ => 1 end
                 <= List.length (df w))%nat).
  { exists es1. split; [exact Hev1|]. rewrite Hsil1. simpl.
    destruct (df w); simpl; lia. }
  destruct o1 as [[[nodes avg] sorted]|e|];
    [|intros H; inversion H; subst; rewrite Hcfg1; auto..].
  assert (Hlen : List.length sorted = List.length (df w)).
  { apply prepare_ok_inv in Hprep
      as (ss & sizes & k & _ & _ & _ & Hl & _ & _ & -> & _).
    now rewrite sort_desc_length, items_of_length. }
  destruct (partition_run fuel avg sorted w1)
    as (es2 & o2 & Hpart & Hr & Hw & _ & _).
  unfold bind at 1. rewrite Hpart.
  assert (Hwritten : (List.length (written_ids (es1 ++ es2))
                      + match df w with [] => 0 | _ :: _ => 1 end
                      <= List.length (df w))%nat).
  { rewrite written_ids_app, Hsil1. simpl. rewrite <- Hlen.
    destruct sorted, (df w); simpl in *; try discriminate; lia. }
  destruct o2 as [v|e|]; [|now destruct (Hr e)|].
  - destruct (finish_run nodes avg v (logged w1 es2))
      as [[_ Hfin] | (c & _ & Hc & Hfin)]; rewrite Hfin;
      intros H; inversion H; subst w' o; simpl.
    + rewrite Hcfg1, Hev1, <- app_assoc. repeat split; try assumption.
      now exists (es1 ++ es2)%list.
    + rewrite Hev1, <- !app_assoc. repeat split; try assumption.
      * exists (es1 ++ es2 ++ [Write_submit_configs c])%list.
        split; [reflexivity|].
        rewrite app_assoc, written_ids_app. simpl.
        now rewrite app_nil_r.
      * rewrite Hc. simpl. now rewrite Hcfg1.
      * rewrite Hc. simpl. now rewrite Hcfg1.
      * rewrite Hc. simpl. now rewrite Hcfg1.
      * intros Hno. now destruct (Hno c).
  - intros H. inversion H; subst w' o. simpl.
    rewrite Hcfg1, Hev1, <- app_assoc. repeat split; try assumption.
    now exists (es1 ++ es2)%list.
Qed.

End Frame.



(** C7.  CPU reallocation: a run that returns has closed at least one
    group, and the [cpu_per_node] it returns (and stores in the caller's
    configuration) is twice the base value exactly when
    [node_count // group_count >= 2], and the base value otherwise, where
    the group count is the number of group files written; with 10 nodes
    and a base of 4, four groups give 8 and six groups give 4. *)
Theorem cpu_reallocation_rule (fuel : nat) (w w' : world) (c : configs) :
  balance_nodes fuel w = (w', Ok c) ->
  let base := cpu_per_node (cfg w) in
  let nodes := max_cpu_request (cfg w) / base in
  let groups := (groups_written (events w') - groups_written (events w))%nat in
  base <> 0
  /\ groups <> 0%nat
  /\ cpu_per_node c
     = (if (2 <=? nodes / Z.of_nat groups)%Z then 2 * base else base)
  /\ (cpu_per_node c = 2 * base <-> 2 <= nodes / Z.of_nat groups)
  /\ cpu_per_node (cfg w') = cpu_per_node c
  /\ (forall n g b w0, g <> 0%nat ->
        reallocate_cpu n g b w0
        = (w0, Ok (if (2 <=? n / Z.of_nat g)%Z then 2 * b else b)))
  /\ (forall w0, reallocate_cpu 10 4 4 w0 = (w0, Ok 8))
  /\ (forall w0, reallocate_cpu 10 6 4 w0 = (w0, Ok 4)).
Proof.
  intros Hrun base nodes groups.
  apply balance_nodes_ok_inv in Hrun
    as (w1 & nodes' & avg & sorted & w2 & v & Hprep & Hpart & Hfin).
  apply prepare_ok_inv in Hprep
    as (ss & sizes & k & Hbase & Hnodes & _ & _ & _ & _ & _ & Hw1).
  destruct (partition_run fuel avg sorted w1)
    as (es & o & Hrun & _ & _ & Hg & _).
  rewrite Hpart in Hrun. inversion Hrun; subst w2. clear Hrun.
  match goal with H : Ok v = o |- _ => symmetry in H; rename H into Ho end.
  specialize (Hg v Ho).
  apply finish_ok_inv in Hfin as (Hne & Hc & Hw').
  assert (Hgroups : groups = List.length (all_groups v)).
  { unfold groups. rewrite Hw', Hw1. simpl.
    rewrite !groups_written_app.
    destruct (prepare_log_silent ss k
                (PyNum.div_int (Series.sum (disk_reqs sizes)) nodes') (cfg w))
      as [_ Hs].
    rewrite !groups_written_app in Hs. simpl in *. lia. }
  assert (Hcfg : cfg (logged w1 es) = cfg w) by now rewrite Hw1.
  rewrite Hcfg in Hc. fold base in Hc. rewrite <- Hgroups in Hc.
  replace nodes' with nodes in Hc by (now rewrite Hnodes).
  assert (Hcpu : cpu_per_node c
                 = (if (2 <=? nodes / Z.of_nat groups)%Z
                    then 2 * base else base)) by now rewrite Hc.
  split; [exact Hbase|].
  split; [rewrite Hgroups; now destruct (all_groups v)|].
  split; [exact Hcpu|].
  split.
  { rewrite Hcpu. destruct (2 <=? nodes / Z.of_nat groups)%Z eqn:E.
    - apply Z.leb_le in E. tauto.
    - apply Z.leb_gt in E. unfold base in *. lia. }
  split; [now rewrite Hw'|].
  split; [intros n g b w0 Hg0; now apply reallocate_cpu_rule|].
  split; reflexivity.
Qed.

Lemma cpu_reallocation_rule_witness :
  exists w' c,
    balance_nodes 20 scenario = (w', Ok c)
    /\ groups_written (events w') = 1%nat
    /\ cpu_per_node c = 8.
Proof.
  do 2 eexists.
  match goal with
  | |- ?A /\ _ => assert (Hrun : A) by (vm_compute; reflexivity)
  end.
  split; [exact Hrun|]. split; [reflexivity|].
  exact (proj1 (proj2 (proj2 (cpu_reallocation_rule _ _ _ _ Hrun)))).
Defined.

(** C1.  Conservation fails.  On the scenario of the specification (A:50,
    B:40, C:30, D:10 on two nodes) the run returns having written the
    single group file {A, D}: B, seeded into the group still open at the
    end, and C, the last remaining row, are in no file.  In every run on
    a non-empty DataFrame at least one row is in no file. *)
Theorem conservation_fails :
  (exists w' c,
      balance_nodes 20 scenario = (w', Ok c)
      /\ input_ids (df scenario) = ["A"; "B"; "C"; "D"]
      /\ written_ids (events w') = ["A"; "D"]
      /\ ~ Permutation (input_ids (df scenario)) (written_ids (events w')))
  /\ (forall fuel w,
        let w' := fst (balance_nodes fuel w) in
        exists es,
          events w' = (events w ++ es)%list
          /\ (List.length (written_ids es)
              + match df w with [] => 0 | _ :: _ => 1 end
              <= List.length (input_ids (df w)))%nat).
Proof.
  split.
  - do 2 eexists. split; [vm_compute; reflexivity|].
    split; [reflexivity|]. split; [reflexivity|].
    intros HP. apply Permutation_length in HP. discriminate.
  - intros fuel w w'.
    destruct (balance_nodes fuel w) as [w2 o] eqn:Hrun.
    destruct (balance_nodes_run _ _ _ _ Hrun) as (_ & Hes & _).
    unfold input_ids. rewrite length_map. exact Hes.
Qed.

(** C8.  The accumulated weight is not the weight of the group.  On
    disk requirements 120, 100, 80, 60, 40, 20 with threshold 140, the
    fourth pass appends F (weight 20) to the group seeded with B (weight
    100) because 100 + 20 < 140, and [node_size] becomes 140, the weight
    40 of the new last row E having been added instead; the same happens
    on the seventh pass in the group seeded with C.  So on two groups,
    neither seeded with the largest item, the accumulated weight is not
    below the threshold after an accepted addition. *)
Theorem accumulated_weight_adds_the_next_row :
  exists w1 avg sorted w4 v4 w7 v7,
    prepare 20 six_items = (w1, Ok (3, avg, sorted))
    /\ PyNum.eqb avg (Fin 140) = true
    /\ map fst sorted = ["A"; "B"; "C"; "D"; "E"; "F"]
    /\ run_steps 4 avg (entry sorted) w1 = (w4, Ok v4)
    /\ curr_group v4 = ["B"; "F"]
    /\ map fst (df_sorted v4) = ["C"; "D"; "E"]
    /\ PyNum.eqb (node_size v4) (Fin (100 + 40)) = true
    /\ PyNum.eqb (node_size v4) (Fin (100 + 20)) = false
    /\ PyNum.ltb (node_size v4) avg = false
    /\ run_steps 7 avg (entry sorted) w1 = (w7, Ok v7)
    /\ curr_group v7 = ["C"; "E"]
    /\ map fst (df_sorted v7) = ["D"]
    /\ PyNum.eqb (node_size v7) (Fin (80 + 60)) = true
    /\ PyNum.eqb (node_size v7) (Fin (80 + 40)) = false
    /\ PyNum.ltb (node_size v7) avg = false.
Proof.
  do 7 eexists.
  split; [vm_compute; reflexivity|].
  split; [reflexivity|]. split; [reflexivity|].
  split; [vm_compute; reflexivity|].
  split; [reflexivity|]. split; [reflexivity|]. split; [reflexivity|].
  split; [reflexivity|]. split; [reflexivity|].
  split; [vm_compute; reflexivity|].
  repeat split.
Qed.

(** C9, as the specification states it, fails: after the run of the
    scenario returns, the size column of the caller's DataFrame holds
    the converted numbers, a column [disk_req] has been added, and the
    caller's configuration holds the new [cpu_per_node] and
    [disk_request]. *)
Lemma caller_dataframe_is_overwritten :
  exists w' c,
    balance_nodes 20 scenario = (w', Ok c)
    /\ map run_1_size (df scenario)
       = [Str "2.5"; Str "2"; Str "1.5"; Str "0.5"]
    /\ map run_1_size (df w')
       = [Num (Fin 2.5); Num (Fin 2); Num (Fin 1.5); Num (Fin 0.5)]
    /\ map disk_req (df scenario) = [None; None; None; None]
    /\ map disk_req (df w')
       = [Some (PyNum.scale (Fin 2.5) 20); Some (PyNum.scale (Fin 2) 20);
          Some (PyNum.scale (Fin 1.5) 20); Some (PyNum.scale (Fin 0.5) 20)]
    /\ df w' <> df scenario
    /\ cpu_per_node (cfg scenario) = 4
    /\ cpu_per_node (cfg w') = 8.
Proof.
  do 2 eexists. split; [vm_compute; reflexivity|].
  repeat split. discriminate.
Qed.

(** C9, amended.  [balance_nodes] overwrites the size column of the
    caller's DataFrame with the converted numbers and adds the column
    [disk_req] (twenty times the size); when it returns it has stored the
    new [cpu_per_node] and [disk_request] in the caller's configuration,
    which is the value returned.  The accessions of the rows, their
    order and number, and the other configuration entries are unchanged
    in every run, and the whole configuration is unchanged when the call
    raises ValueError or ZeroDivisionError: both are raised before lines
    159 and 160 assign into it. *)
Theorem caller_state_after_balance (fuel : nat) (w w' : world)
  (o : outcome configs) :
  balance_nodes fuel w = (w', o) ->
  input_ids (df w') = input_ids (df w)
  /\ max_cpu_request (cfg w') = max_cpu_request (cfg w)
  /\ sra_list_folder (cfg w') = sra_list_folder (cfg w)
  /\ sra_query_file (cfg w') = sra_query_file (cfg w)
  /\ (forall s, o = Raise (ValueError s) -> cfg w' = cfg w)
  /\ (forall d, o = Raise (ZeroDivisionError d) -> cfg w' = cfg w)
  /\ (forall c, o = Ok c ->
        cfg w' = c
        /\ exists ss sizes avg,
             apply_convert_size (map run_1_size (df w)) w
             = (logged w (warnings ss), Ok sizes)
             /\ List.length sizes = List.length (df w)
             /\ df w' = with_sizes (df w) sizes
             /\ disk_request c = Some avg).
Proof.
  intros Hrun.
  destruct (balance_nodes_run _ _ _ _ Hrun) as (Hids & _ & (H1 & H2 & H3) & Hno).
  repeat (split; [assumption|]).
  split; [intros s ->; apply Hno; discriminate|].
  split; [intros d ->; apply Hno; discriminate|].
  intros c ->.
  apply balance_nodes_ok_inv in Hrun
    as (w1 & nodes & avg & sorted & w2 & v & Hprep & Hpart & Hfin).
  apply prepare_ok_inv in Hprep
    as (ss & sizes & k & _ & _ & Hconv & Hlen & _ & _ & _ & Hw1).
  destruct (partition_run fuel avg sorted w1)
    as (es & o & Hp & _ & _ & _ & _).
  rewrite Hpart in Hp. inversion Hp; subst w2.
  apply finish_ok_inv in Hfin as (_ & Hc & Hw').
  split; [now rewrite Hw'|].
  exists ss, sizes, avg. repeat split; try assumption.
  - now rewrite Hw', Hw1.
  - now rewrite Hc.
Qed.

Lemma caller_state_after_balance_witness :
  exists w' c,
    balance_nodes 20 scenario = (w', Ok c)
    /\ input_ids (df w') = input_ids (df scenario)
    /\ cfg w' = c.
Proof.
  do 2 eexists.
  match goal with
  | |- ?A /\ _ => assert (Hrun : A) by (vm_compute; reflexivity)
  end.
  split; [exact Hrun|].
  pose proof (caller_state_after_balance _ _ _ _ Hrun) as H.
  split; [exact (proj1 H)|].
  exact (proj1 (proj2 (proj2 (proj2 (proj2 (proj2 (proj2 H))))) _ eq_refl)).
Defined.

(** C4, as the specification states it, fails: with 2 CPUs requested and
    4 per node the node count is 0, and no configuration error is
    raised.  The sizes are converted in the caller's DataFrame, the
    threshold becomes [inf], the storage is reset, the partition loop
    runs and the queue file is written; the run ends in the
    ZeroDivisionError of the CPU reallocation. *)
Lemma zero_nodes_is_not_rejected :
  exists w',
    max_cpu_request (cfg underprovisioned)
    / cpu_per_node (cfg underprovisioned) = 0
    /\ balance_nodes 20 underprovisioned
       = (w', Raise (ZeroDivisionError CpuReallocation))
    /\ firstn 4 (events w')
       = [Success_proceeding PInf; Remove_if_exists "sras_to_process";
          Remove_if_exists "sra_queue.txt"; Mkdir "sras_to_process"]
    /\ In (Write_queue []) (events w')
    /\ df w' <> df underprovisioned.
Proof.
  eexists. split; [reflexivity|]. split; [vm_compute; reflexivity|].
  split; [reflexivity|]. split; [|discriminate].
  simpl. tauto.
Qed.

Section NodeCount.
Import PyNum.

Lemma div_int_zero (x : pyfloat) :
  ltb x (Fin 0) = false ->
  div_int x 0 = PInf \/ div_int x 0 = NaN.
Proof.
  destruct x as [a| | |]; simpl; intros H; auto; try discriminate.
  destruct (Qcompare a 0) eqn:E; auto.
  apply negb_false_iff, Qle_bool_iff in H.
  apply Qlt_alt in E. exfalso. exact (Qlt_not_le _ _ E H).
Qed.

Lemma overflow_adjust_unbounded (fuel : nat) (m a : pyfloat) (w : world) :
  a = PInf \/ a = NaN ->
  overflow_adjust fuel m a w = (logged w [Success_proceeding a], Ok a).
Proof.
  intros [-> | ->]; unfold overflow_adjust, gtb; now destruct m.
Qed.

End NodeCount.

(** C4, amended.  The node count is [max_cpu_request // cpu_per_node];
    the run is rejected before any work, by the ZeroDivisionError of
    that division, only when [cpu_per_node] is 0.  A node count below 1
    is not checked: with a node count of 0, a DataFrame that is not
    empty, sizes that convert and a total that is not negative, the
    sizes are stored in the caller's
    DataFrame, the threshold is [inf] or [nan], the storage is reset and
    the preparation ends normally, so that the partition loop is
    entered. *)
Theorem node_count_is_not_checked (fuel : nat) (w : world) :
  (cpu_per_node (cfg w) = 0 ->
   balance_nodes fuel w = (w, Raise (ZeroDivisionError NodeCount)))
  /\ (forall w1 nodes avg sorted,
        prepare fuel w = (w1, Ok (nodes, avg, sorted)) ->
        cpu_per_node (cfg w) <> 0
        /\ nodes = max_cpu_request (cfg w) / cpu_per_node (cfg w)
        /\ balance_nodes fuel w
           = bind (partition fuel avg sorted) (finish nodes avg) w1)
  /\ (forall ss sizes,
        df w <> [] ->
        cpu_per_node (cfg w) <> 0 ->
        max_cpu_request (cfg w) / cpu_per_node (cfg w) = 0 ->
        apply_convert_size (map run_1_size (df w)) w
        = (logged w (warnings ss), Ok sizes) ->
        PyNum.ltb (Series.sum (disk_reqs sizes)) (Fin 0) = false ->
        exists avg,
          (avg = PInf \/ avg = NaN)
          /\ prepare fuel w
             = (mkWorld (with_sizes (df w) sizes) (cfg w)
                  (events w ++ warnings ss ++ [Success_proceeding avg]
                   ++ storage_reset (cfg w)),
                Ok (0, avg, Series.sort_desc snd (items_of (df w) sizes)))).
Proof.
  split; [|split].
  - intros Hcpu. unfold balance_nodes, prepare, bind, get_configs.
    now rewrite Hcpu.
  - intros w1 nodes avg sorted Hprep.
    pose proof (balance_nodes_after_prepare _ _ _ _ _ _ Hprep) as Hrest.
    apply prepare_ok_inv in Hprep as (ss & sizes & k & Hcpu & Hn & _).
    auto.
  - intros ss sizes _ Hcpu Hnodes Hconv Hsum.
    exists (PyNum.div_int (Series.sum (disk_reqs sizes)) 0).
    pose proof (div_int_zero _ Hsum) as Havg.
    split; [exact Havg|].
    rewrite (prepare_run fuel w ss sizes
               [Success_proceeding
                  (PyNum.div_int (Series.sum (disk_reqs sizes)) 0)]
               (PyNum.div_int (Series.sum (disk_reqs sizes)) 0) Hcpu Hconv).
    + now rewrite Hnodes.
    + intros w0. rewrite Hnodes. now apply overflow_adjust_unbounded.
Qed.

Lemma node_count_is_not_checked_witness :
  exists avg,
    (avg = PInf \/ avg = NaN)
    /\ prepare 20 underprovisioned
       = (mkWorld
            (with_sizes (df underprovisioned)
               [Fin 2.5; Fin 2; Fin 1.5; Fin 0.5])
            (cfg underprovisioned)
            (events underprovisioned ++ warnings []
             ++ [Success_proceeding avg]
             ++ storage_reset (cfg underprovisioned)),
          Ok (0, avg,
              Series.sort_desc snd
                (items_of (df underprovisioned)
                   [Fin 2.5; Fin 2; Fin 1.5; Fin 0.5]))).
Proof.
  apply (proj2 (proj2 (node_count_is_not_checked 20 underprovisioned))
           [] [Fin 2.5; Fin 2; Fin 1.5; Fin 0.5]).
  - discriminate.
  - discriminate.
  - reflexivity.
  - reflexivity.
  - reflexivity.
Defined.

(* ================================================================== *)
(** * Further properties of [convert_size] *)
(* ================================================================== *)

Section ConvertSizeMore.
Import PyStr PyNum.

Lemma rstrip_nonspace (u : string) :
  all_chars (fun c => negb (is_space c)) u = true -> rstrip u = u.
Proof.
  induction u as [|c u IH]; [reflexivity|].
  cbn [all_chars rstrip]. intros H. apply andb_prop in H as [Hc Hu].
  rewrite (IH Hu). apply negb_true_iff in Hc. rewrite Hc. now destruct u.
Qed.

Lemma rstrip_app_nonspace (d u : string) :
  u <> "" ->
  all_chars (fun c => negb (is_space c)) u = true ->
  rstrip (d ++ u) = d ++ u.
Proof.
  intros Hne Hu. induction d as [|x d IH].
  - now apply rstrip_nonspace.
  - cbn [append rstrip]. fold (append d u). rewrite IH.
    destruct d; [destruct u; [contradiction|reflexivity] | reflexivity].
Qed.

Lemma strip_app_nonspace (d u : string) :
  u <> "" ->
  all_chars (fun c => negb (is_space c)) u = true ->
  strip (d ++ u) = lstrip d ++ u.
Proof.
  intros Hne Hu. unfold strip. rewrite (rstrip_app_nonspace d u Hne Hu).
  destruct u as [|c r]; [contradiction|].
  cbn [all_chars] in Hu. apply andb_prop in Hu as [Hc _].
  apply negb_true_iff in Hc. now apply lstrip_app_nonspace.
Qed.

Lemma mem_head (a : ascii) (r : string) : mem a (String a r) = true.
Proof. simpl. now rewrite Ascii.eqb_refl. Qed.

Lemma not_mem_differs (marks : string) (a : ascii) (u : string) :
  mem a marks = true ->
  all_chars (fun c => negb (mem c marks)) u = true ->
  all_chars (fun c => negb (Ascii.eqb a c)) u = true.
Proof.
  intros Ha. apply all_chars_weaken. intros c Hc.
  apply negb_true_iff. destruct (Ascii.eqb a c) eqn:E; [|reflexivity].
  apply Ascii.eqb_eq in E. subst c. rewrite Ha in Hc. discriminate.
Qed.

Lemma all_chars_and (P R : ascii -> bool) (u : string) :
  all_chars (fun c => P c && R c) u = true ->
  all_chars P u = true /\ all_chars R u = true.
Proof.
  induction u as [|c u IH]; simpl; [auto|].
  intros H. apply andb_prop in H as [Hc Hu].
  apply andb_prop in Hc as [HP HR]. destruct (IH Hu) as [-> ->].
  now rewrite HP, HR.
Qed.

End ConvertSizeMore.

(** X2.  A unit the code does not know is not an error: a float literal
    followed by a suffix without white space, without the letters G, M
    and K, and with a character no float literal has (TB, gb, B, %)
    gives 0, with one warning that shows the stripped string. *)
Theorem convert_size_unknown_unit (w : world) (d u : string) (x : pyfloat) :
  PyNum.py_float d = Some x ->
  PyStr.all_chars
    (fun c => negb (PyStr.is_space c) && negb (PyStr.mem c "GMK")) u = true ->
  PyStr.all_chars PyNum.float_char u = false ->
  convert_size (Str (d ++ u)) w
  = (logged w [Warning_unexpected_size_format (PyStr.lstrip d ++ u)],
     Ok (Fin 0)).
Proof.
  intros Hd Hu Hbad.
  assert (Hne : u <> "") by (intros ->; discriminate).
  apply all_chars_and in Hu as [Hsp Hmarks].
  pose proof (strip_app_nonspace d u Hne Hsp) as Hstrip.
  set (t := PyStr.lstrip d ++ u) in *.
  assert (Hall : PyStr.all_chars PyNum.float_char (PyStr.lstrip d) = true).
  { apply all_chars_lstrip. exact (py_float_chars _ _ Hd). }
  assert (Hnone : PyNum.py_float t = None).
  { destruct (PyNum.py_float t) as [y|] eqn:E; [|reflexivity].
    apply py_float_chars in E. unfold t in E.
    rewrite all_chars_app, Hbad, andb_false_r in E. discriminate. }
  assert (Habsent : forall a r,
             PyStr.mem a "GMK" = true -> PyNum.float_char a = false ->
             PyStr.contains (String a r) t = false).
  { intros a r Ha Hfa. apply contains_absent. unfold t.
    rewrite all_chars_app. apply andb_true_intro. split.
    - apply (all_chars_weaken PyNum.float_char); [|exact Hall].
      intros c. now apply float_char_differs.
    - now apply (not_mem_differs "GMK"). }
  unfold convert_size. simpl isna. cbv iota. rewrite Hstrip, Hnone.
  unfold convert_units.
  rewrite (Habsent "G"%char "B" eq_refl eq_refl).
  rewrite (Habsent "M"%char "B" eq_refl eq_refl).
  rewrite (Habsent "K"%char "B" eq_refl eq_refl).
  reflexivity.
Qed.

Lemma convert_size_unknown_unit_witness :
  convert_size (Str (" 1.5" ++ "TB")) scenario
  = (logged scenario [Warning_unexpected_size_format "1.5TB"], Ok (Fin 0))
  /\ convert_size (Str ("2" ++ "gb")) scenario
     = (logged scenario [Warning_unexpected_size_format "2gb"], Ok (Fin 0)).
Proof.
  split.
  - exact (convert_size_unknown_unit scenario " 1.5" "TB" (Fin 1.5)
             eq_refl eq_refl eq_refl).
  - exact (convert_size_unknown_unit scenario "2" "gb" (Fin 2)
             eq_refl eq_refl eq_refl).
Defined.

Section ColumnConversion.
Import PyStr PyNum.

(** The three ways [convert_size] ends: a number and no log line; 0 and
    one warning, on a string that [float] rejects; a ValueError and no
    log line. *)
Lemma convert_size_cases (c : cell) (w w' : world) (o : outcome pyfloat) :
  convert_size c w = (w', o) ->
  (exists x, o = Ok x /\ w' = w
             /\ forall w0, convert_size c w0 = (w0, Ok x))
  \/ (exists s, c = Str s /\ py_float s = None /\ o = Ok (Fin 0)
                /\ w' = logged w [Warning_unexpected_size_format (strip s)]
                /\ forall w0, convert_size c w0
                   = (logged w0 [Warning_unexpected_size_format (strip s)],
                      Ok (Fin 0)))
  \/ (exists s s', c = Str s /\ py_float s = None
                   /\ o = Raise (ValueError s') /\ w' = w).
Proof.
  unfold convert_size. destruct (isna c) eqn:Ena.
  { intros H. inversion H; subst. left. exists (Fin 0). now repeat split. }
  destruct c as [|s|x]; [discriminate| |].
  2:{ intros H. inversion H; subst. left. exists x. now repeat split. }
  destruct (py_float (strip s)) as [x|] eqn:Ef.
  { intros H. inversion H; subst. left. exists x. now repeat split. }
  assert (Hs : py_float s = None) by now rewrite <- py_float_strip.
  unfold convert_units, float_of, bind, from_option, ret, raise.
  destruct (contains "GB" (strip s)).
  { destruct (py_float (replace "GB" "" (strip s))) as [x|];
      intros H; inversion H; subst.
    - left. eexists. now repeat split.
    - right. right. now exists s, (replace "GB" "" (strip s)). }
  destruct (contains "MB" (strip s)).
  { destruct (py_float (replace "MB" "" (strip s))) as [x|];
      intros H; inversion H; subst.
    - left. eexists. now repeat split.
    - right. right. now exists s, (replace "MB" "" (strip s)). }
  destruct (contains "KB" (strip s)).
  { destruct (py_float (replace "KB" "" (strip s))) as [x|];
      intros H; inversion H; subst.
    - left. eexists. now repeat split.
    - right. right. now exists s, (replace "KB" "" (strip s)). }
  intros H. inversion H; subst. right. left. exists s. now repeat split.
Qed.

End ColumnConversion.

Lemma apply_convert_size_effects (column : list cell) :
  forall (w w' : world) (o : outcome (list pyfloat)),
    apply_convert_size column w = (w', o) ->
    exists ss,
      w' = logged w (warnings ss)
      /\ (forall s, In s ss ->
            exists s0, In (Str s0) column /\ s = PyStr.strip s0
                       /\ PyNum.py_float s0 = None)
      /\ (forall xs, o = Ok xs ->
            Forall2 (fun c x => forall w0, exists w1,
                                  convert_size c w0 = (w1, Ok x)) column xs)
      /\ (forall e, o = Raise e -> exists s, e = ValueError s)
      /\ o <> OutOfFuel.
Proof.
  induction column as [|c rest IH]; intros w w' o; simpl.
  - intros H. inversion H; subst. exists []. rewrite logged_nil.
    repeat split; try discriminate.
    + intros s [].
    + intros xs Hxs. inversion Hxs. constructor.
  - unfold bind at 1. destruct (convert_size c w) as [w1 o1] eqn:Ec.
    apply convert_size_cases in Ec
      as [(x & -> & -> & Hx) | [(s & -> & Hs & -> & -> & Hx)
                               | (s & s' & -> & Hs & -> & ->)]].
    + unfold bind.
      destruct (apply_convert_size rest w) as [w2 o2] eqn:Er.
      destruct (IH _ _ _ Er) as (ss & -> & Hss & Hok & Hraise & Hfuel).
      assert (Hin : forall s, In s ss ->
                 exists s0, In (Str s0) (c :: rest) /\ s = PyStr.strip s0
                            /\ PyNum.py_float s0 = None).
      { intros s Hs. destruct (Hss s Hs) as (s0 & H0 & H1).
        exists s0. split; [now right | exact H1]. }
      destruct o2 as [xs|e|]; intros H; inversion H; subst; exists ss;
        repeat split; try assumption; try discriminate;
        try (now destruct Hfuel);
        try (intros e' He'; inversion He'; subst; now apply Hraise).
      intros ys Hys. inversion Hys; subst. constructor; [|now apply Hok].
      intros w0. exists w0. apply Hx.
    + unfold bind.
      destruct (apply_convert_size rest
                  (logged w [Warning_unexpected_size_format (PyStr.strip s)]))
        as [w2 o2] eqn:Er.
      destruct (IH _ _ _ Er) as (ss & -> & Hss & Hok & Hraise & Hfuel).
      assert (Hin : forall s1, In s1 (PyStr.strip s :: ss) ->
                 exists s0, In (Str s0) (Str s :: rest)
                            /\ s1 = PyStr.strip s0
                            /\ PyNum.py_float s0 = None).
      { intros s1 [<- | Hs1].
        - exists s. split; [now left | now split].
        - destruct (Hss s1 Hs1) as (s0 & H0 & H1).
          exists s0. split; [now right | exact H1]. }
      assert (Hlog : logged
                       (logged w
                          [Warning_unexpected_size_format (PyStr.strip s)])
                       (warnings ss)
                     = logged w (warnings (PyStr.strip s :: ss)))
        by now rewrite logged_app.
      destruct o2 as [xs|e|]; intros H; inversion H; subst;
        exists (PyStr.strip s :: ss);
        repeat split; try assumption; try discriminate;
        try (now destruct Hfuel);
        try (intros e' He'; inversion He'; subst; now apply Hraise).
      intros ys Hys. inversion Hys; subst. constructor; [|now apply Hok].
      intros w0. eexists. apply Hx.
    + intros H. inversion H; subst. exists []. rewrite logged_nil.
      repeat split; try discriminate.
      * intros s0 [].
      * intros e He. inversion He; subst. now exists s'.
Qed.

(** X1.  Converting the size column touches nothing but the log, where
    it leaves one warning for each string of unexpected format, each
    showing a stripped cell that [float] rejects.  When it returns, the
    result has one number per cell, the one [convert_size] gives for the
    cell; otherwise it has raised ValueError. *)
Theorem column_conversion_effects (column : list cell) (w w' : world)
  (o : outcome (list pyfloat)) :
  apply_convert_size column w = (w', o) ->
  exists ss,
    w' = logged w (warnings ss)
    /\ (forall s, In s ss ->
          exists s0, In (Str s0) column /\ s = PyStr.strip s0
                     /\ PyNum.py_float s0 = None)
    /\ (forall xs, o = Ok xs ->
          Forall2 (fun c x => forall w0, exists w1,
                                convert_size c w0 = (w1, Ok x)) column xs)
    /\ (forall e, o = Raise e -> exists s, e = ValueError s)
    /\ o <> OutOfFuel.
Proof. apply apply_convert_size_effects. Qed.

Lemma column_conversion_effects_witness :
  exists ss,
    fst (apply_convert_size [Str "2GB"; Str "n/a"; Missing] scenario)
    = logged scenario (warnings ss)
    /\ (forall s, In s ss ->
          exists s0, In (Str s0) [Str "2GB"; Str "n/a"; Missing]
                     /\ s = PyStr.strip s0 /\ PyNum.py_float s0 = None).
Proof.
  destruct (column_conversion_effects [Str "2GB"; Str "n/a"; Missing]
              scenario _ _ eq_refl) as (ss & Hw & Hss & _).
  exists ss. split; [exact Hw | exact Hss].
Defined.

(* ================================================================== *)
(** * The passes of the partition loop *)
(* ================================================================== *)

Section Passes.
Import PyNum.
Variable avg : pyfloat.

(** The body of the loop does what the rules say. *)
Lemma partition_step_pass (v : locals) (w : world) :
  df_sorted v <> [] ->
  exists es v' f,
    partition_step avg v w = (logged w es, Ok (v', f))
    /\ pass avg v es v' f.
Proof.
  destruct v as [seq g cg ag ns]. simpl. intros Hseq.
  destruct seq as [|it [|it2 rest]]; [contradiction| |].
  - do 3 eexists. split; [reflexivity | constructor].
  - destruct (is_zero ns) eqn:Ens.
    + do 3 eexists. split; [|now constructor].
      unfold partition_step. simpl. now rewrite Ens.
    + destruct (exists_last (l := it :: it2 :: rest)) as (l' & x & El);
        [discriminate|].
      destruct l' as [|y l] using rev_ind; [destruct rest; discriminate|].
      clear IHl. rewrite El, <- app_assoc. simpl.
      destruct (ltb (add ns (snd x)) avg) eqn:Elt.
      * do 3 eexists. split; [|now constructor].
        now apply partition_step_accept.
      * exists [Write_group (S g) cg; Info_group_size_exceeded].
        do 2 eexists. split; [|now constructor].
        unfold partition_step. simpl.
        replace (List.length (l ++ [y; x]) =? 1)%nat with false
          by (rewrite length_app; simpl; symmetry; apply Nat.eqb_neq; lia).
        rewrite Ens.
        replace (l ++ [y; x])%list with ((l ++ [y]) ++ [x])%list
          by now rewrite <- app_assoc.
        unfold bind at 1. rewrite iloc_last_app, Elt.
        unfold bind, emit, ret, logged. simpl.
        now rewrite <- !app_assoc.
Qed.

Lemma pass_continue_nonempty (v v' : locals) (es : list event) :
  pass avg v es v' Continue -> df_sorted v' <> [].
Proof.
  intros H. inversion H; subst; simpl; try discriminate;
    now destruct l.
Qed.

Lemma pass_break_empty (v v' : locals) (es : list event) :
  pass avg v es v' Break -> df_sorted v' = [].
Proof. intros H. now inversion H. Qed.

(** Every run of the loop is a sequence of passes: a run that returns
    has emptied [df_sorted]; one that runs out of fuel has not. *)
Lemma partition_loop_passes (fuel : nat) :
  forall v w,
  exists es o v',
    partition_loop fuel avg v w = (logged w es, o)
    /\ passes avg v es v'
    /\ ((o = Ok v' /\ df_sorted v' = [])
        \/ (o = OutOfFuel /\ df_sorted v' <> [])).
Proof.
  induction fuel as [|fuel IH]; intros v w.
  - destruct (df_sorted v) as [|it l] eqn:E.
    + exists [], (Ok v), v. simpl. rewrite E, logged_nil.
      split; [reflexivity|]. split; [constructor | now left].
    + exists [], OutOfFuel, v. simpl. rewrite E, logged_nil.
      split; [reflexivity|]. split; [constructor|].
      right. split; [reflexivity | discriminate].
  - destruct (df_sorted v) as [|it l] eqn:E.
    + exists [], (Ok v), v. simpl. rewrite E, logged_nil.
      split; [reflexivity|]. split; [constructor | now left].
    + assert (Hne : df_sorted v <> []) by (rewrite E; discriminate).
      destruct (partition_step_pass v w Hne) as (es1 & v1 & f & Hstep & Hp).
      cbn [partition_loop]. rewrite E.
      change (0 <? List.length (it :: l))%nat with true. cbv iota.
      rewrite (bind_ok _ _ _ _ _ Hstep). cbn [fst snd].
      destruct f.
      * destruct (IH v1 (logged w es1)) as (es2 & o & v2 & Hrun & Hps & Ho).
        exists (es1 ++ es2)%list, o, v2. rewrite Hrun, logged_app.
        split; [reflexivity|]. split; [|exact Ho].
        now apply (passes_more avg v es1 v1).
      * exists es1, (Ok v1), v1. split; [reflexivity|].
        split; [now constructor|]. left. split; [reflexivity|].
        exact (pass_break_empty _ _ _ Hp).
Qed.

End Passes.

Section PassFacts.
Import PyNum.
Variable avg : pyfloat.

Lemma written_groups_app (es es' : list event) :
  written_groups (es ++ es') = (written_groups es ++ written_groups es')%list.
Proof.
  induction es as [|e es IH]; [reflexivity|].
  destruct e; simpl; now rewrite IH.
Qed.

(** A pass moves accessions from [df_sorted] to the open group, or the
    open group to a file; the pass that breaks drops the last row. *)
Lemma pass_permutation (v v' : locals) (es : list event) (f : flow) :
  pass avg v es v' f ->
  Permutation
    (written_ids es ++ curr_group v' ++ ids (df_sorted v')
     ++ match f with Break => ids (df_sorted v) | Continue => [] end)
    (curr_group v ++ ids (df_sorted v)).
Proof.
  intros H. inversion H; subst; simpl.
  - reflexivity.
  - rewrite app_nil_r, <- app_assoc. reflexivity.
  - rewrite app_nil_r, <- app_assoc. apply Permutation_app_head.
    unfold ids. rewrite !map_app. simpl.
    change (map fst l ++ [fst y; fst x])%list
      with (map fst l ++ [fst y] ++ [fst x])%list.
    rewrite app_assoc. apply Permutation_cons_append.
  - rewrite !app_nil_r. reflexivity.
Qed.

Lemma passes_permutation (v v' : locals) (es : list event) :
  passes avg v es v' ->
  exists last,
    Permutation (written_ids es ++ curr_group v' ++ ids (df_sorted v') ++ last)
      (curr_group v ++ ids (df_sorted v))
    /\ ((last = [] /\ (df_sorted v' = [] -> df_sorted v = []))
        \/ (List.length last = 1%nat /\ df_sorted v' = [])).
Proof.
  induction 1 as [v | v es v' Hp | v es1 v1 es2 v2 Hp Hps IH].
  - exists []. split; [|now left]. simpl. now rewrite app_nil_r.
  - exists (ids (df_sorted v)). split.
    + exact (pass_permutation _ _ _ _ Hp).
    + right. inversion Hp; subst. now split.
  - destruct IH as (last & HP & Hlast). exists last. split.
    + rewrite written_ids_app, <- app_assoc.
      rewrite HP. pose proof (pass_permutation _ _ _ _ Hp) as H1.
      simpl in H1. now rewrite app_nil_r in H1.
    + destruct Hlast as [[-> Hend] | Hlast]; [left | now right].
      split; [reflexivity|]. intros H2.
      now destruct (pass_continue_nonempty _ _ _ _ Hp (Hend H2)).
Qed.

(** With two rows or more to start with, or a group already open, the
    loop ends with an open group. *)
Lemma passes_open_group (v v' : locals) (es : list event) :
  passes avg v es v' ->
  df_sorted v' = [] ->
  (2 <= List.length (df_sorted v))%nat \/ curr_group v <> [] ->
  curr_group v' <> [].
Proof.
  induction 1 as [v | v es v' Hp | v es1 v1 es2 v2 Hp Hps IH];
    intros Hend Hstart.
  - destruct Hstart as [Hlen | Hcg]; [|exact Hcg].
    rewrite Hend in Hlen. simpl in Hlen. lia.
  - inversion Hp; subst. simpl in *.
    destruct Hstart as [Hlen | Hcg]; [lia | exact Hcg].
  - apply IH; [exact Hend|].
    inversion Hp; subst; simpl.
    + right. now destruct cg.
    + right. now destruct cg.
    + left. rewrite length_app. simpl. lia.
Qed.

Lemma pass_groups (v v' : locals) (es : list event) (f : flow) :
  pass avg v es v' f ->
  open_is_counted v ->
  open_is_counted v'
  /\ exists k,
       group v' = (group v + k)%nat
       /\ all_groups v' = (all_groups v ++ seq (S (group v)) k)%list
       /\ map fst (written_groups es) = seq (S (group v)) k
       /\ Forall (fun gm => snd gm <> []) (written_groups es).
Proof.
  unfold open_is_counted. intros H J. inversion H; subst; simpl in *.
  - split; [exact J|]. exists 0%nat. simpl.
    now rewrite Nat.add_0_r, app_nil_r.
  - split; [intros Hcg; now destruct cg|]. exists 0%nat. simpl.
    now rewrite Nat.add_0_r, app_nil_r.
  - split; [intros Hcg; now destruct cg|]. exists 0%nat. simpl.
    now rewrite Nat.add_0_r, app_nil_r.
  - split; [reflexivity|]. exists 1%nat. simpl.
    rewrite Nat.add_1_r. repeat split. constructor; [|constructor].
    simpl. intros ->. specialize (J eq_refl). congruence.
Qed.

Lemma passes_groups (v v' : locals) (es : list event) :
  passes avg v es v' ->
  open_is_counted v ->
  exists k,
    group v' = (group v + k)%nat
    /\ all_groups v' = (all_groups v ++ seq (S (group v)) k)%list
    /\ map fst (written_groups es) = seq (S (group v)) k
    /\ Forall (fun gm => snd gm <> []) (written_groups es).
Proof.
  induction 1 as [v | v es v' Hp | v es1 v1 es2 v2 Hp Hps IH]; intros J.
  - exists 0%nat. simpl. now rewrite Nat.add_0_r, app_nil_r.
  - exact (proj2 (pass_groups _ _ _ _ Hp J)).
  - destruct (pass_groups _ _ _ _ Hp J) as (J1 & k1 & Hg1 & Ha1 & Hw1 & Hn1).
    destruct (IH J1) as (k2 & Hg2 & Ha2 & Hw2 & Hn2).
    exists (k1 + k2)%nat. rewrite written_groups_app, map_app.
    rewrite Hg2, Ha2, Hw2, Hw1, Ha1, Hg1, seq_app, <- app_assoc.
    change (S (group v) + k1)%nat with (S (group v + k1)).
    repeat split; [lia|]. apply Forall_app. now split.
Qed.

Lemma written_ids_concat (es : list event) :
  written_ids es = List.concat (map snd (written_groups es)).
Proof.
  induction es as [|e es IH]; [reflexivity|].
  destruct e; simpl; now rewrite ?IH.
Qed.

Lemma groups_written_length (es : list event) :
  groups_written es = List.length (written_groups es).
Proof.
  induction es as [|e es IH]; [reflexivity|].
  destruct e; simpl; now rewrite ?IH.
Qed.

End PassFacts.

(* ================================================================== *)
(** * The shape of a run *)
(* ================================================================== *)

Section RunShape.
Import PyNum.

Lemma overflow_loop_no_raise (fuel : nat) :
  forall m a w w' e, overflow_loop fuel m a w <> (w', Raise e).
Proof.
  induction fuel as [|fuel IH]; intros m a w w' e; simpl;
    destruct (gtb m a); try discriminate.
  unfold bind, emit. apply IH.
Qed.

Lemma overflow_adjust_no_raise (fuel : nat) (m a : pyfloat) (w w' : world)
  (e : exn) :
  overflow_adjust fuel m a w <> (w', Raise e).
Proof.
  unfold overflow_adjust. destruct (gtb m a).
  - apply overflow_loop_no_raise.
  - discriminate.
Qed.

(** [prepare] raises in two ways only: at the node count, before
    anything else; in the conversion of a size, after the warnings. *)
Lemma prepare_raise_inv (fuel : nat) (w w1 : world) (e : exn) :
  prepare fuel w = (w1, Raise e) ->
  (e = ZeroDivisionError NodeCount /\ cpu_per_node (cfg w) = 0 /\ w1 = w)
  \/ (exists s ss, e = ValueError s /\ cpu_per_node (cfg w) <> 0
                   /\ w1 = logged w (warnings ss)).
Proof.
  unfold prepare. unfold bind at 1. unfold get_configs.
  unfold bind at 1. unfold floordiv.
  destruct (cpu_per_node (cfg w) =? 0)%Z eqn:Ecpu.
  { intros H. inversion H; subst. left. repeat split. lia. }
  unfold ret at 1. unfold bind at 1. unfold get_df. unfold bind at 1.
  destruct (apply_convert_size (map run_1_size (df w)) w)
    as [w2 o2] eqn:Econv.
  destruct (apply_convert_size_effects _ _ _ _ Econv)
    as (ss & -> & _ & _ & Hraise & _).
  destruct o2 as [sizes|e2|]; [| |discriminate].
  - unfold bind at 1. unfold set_df. unfold bind at 1.
    match goal with
    | |- context [overflow_adjust fuel ?m ?a ?w0] =>
        destruct (overflow_adjust fuel m a w0) as [w3 o3] eqn:Eadj
    end.
    destruct o3 as [avg|e3|]; try discriminate.
    now apply overflow_adjust_no_raise in Eadj.
  - intros H. inversion H; subst. right.
    destruct (Hraise e eq_refl) as (s & ->).
    exists s, ss. repeat split. lia.
Qed.

Lemma insert_desc_permutation {A} (key : A -> pyfloat) (r : A) (l : list A) :
  Permutation (Series.insert_desc key r l) (r :: l).
Proof.
  induction l as [|r' l IH]; simpl; [reflexivity|].
  destruct (Series.before (key r') (key r)); [|reflexivity].
  rewrite IH. apply perm_swap.
Qed.

Lemma sort_desc_permutation {A} (key : A -> pyfloat) (l : list A) :
  Permutation (Series.sort_desc key l) l.
Proof.
  induction l as [|r l IH]; simpl; [reflexivity|].
  rewrite insert_desc_permutation. now constructor.
Qed.


Lemma partition_passes (fuel : nat) (avg : pyfloat) (sorted : list item)
  (w : world) :
  exists es v,
    passes avg (entry sorted) es v
    /\ ((partition fuel avg sorted w
         = (logged w (es ++ [Write_queue (all_groups v)]), Ok v)
         /\ df_sorted v = [])
        \/ partition fuel avg sorted w = (logged w es, OutOfFuel)).
Proof.
  destruct (partition_loop_passes avg fuel (entry sorted) w)
    as (es & o & v & Hloop & Hps & Ho).
  exists es, v. split; [exact Hps|].
  destruct Ho as [[-> Hend] | [-> _]]; [left; split; [|exact Hend] | right];
    unfold partition; unfold bind at 1; rewrite Hloop; [|reflexivity].
  unfold bind, emit, ret, logged. simpl. now rewrite <- app_assoc.
Qed.

(** A run that got through the partition loop, piece by piece. *)
Lemma balance_nodes_completed (fuel : nat) (w w' : world)
  (o : outcome configs) :
  balance_nodes fuel w = (w', o) ->
  completed o = true ->
  exists ss sizes k es v tail,
    let nodes := max_cpu_request (cfg w) / cpu_per_node (cfg w) in
    let a0 := div_int (Series.sum (disk_reqs sizes)) nodes in
    let avg := add_passes k a0 in
    cpu_per_node (cfg w) <> 0
    /\ apply_convert_size (map run_1_size (df w)) w
       = (logged w (warnings ss), Ok sizes)
    /\ List.length sizes = List.length (df w)
    /\ gtb (Series.max (disk_reqs sizes)) avg = false
    /\ passes avg (entry (Series.sort_desc snd (items_of (df w) sizes))) es v
    /\ df_sorted v = []
    /\ df w' = with_sizes (df w) sizes
    /\ events w'
       = (events w ++ warnings ss ++ adjust_log k a0 ++ storage_reset (cfg w)
          ++ es ++ Write_queue (all_groups v) :: tail)%list
    /\ ((all_groups v = []
         /\ o = Raise (ZeroDivisionError CpuReallocation)
         /\ tail = [] /\ cfg w' = cfg w)
        \/ (all_groups v <> []
            /\ exists c,
                 o = Ok c /\ tail = [Write_submit_configs c] /\ cfg w' = c
                 /\ c = mkConfigs (max_cpu_request (cfg w))
                          (if (2 <=? nodes
                                     / Z.of_nat (List.length (all_groups v)))%Z
                           then 2 * cpu_per_node (cfg w)
                           else cpu_per_node (cfg w))
                          (Some avg) (sra_list_folder (cfg w))
                          (sra_query_file (cfg w)))).
Proof.
  intros Hrun Hdone.
  destruct (prepare fuel w) as [w1 o1] eqn:Hprep.
  destruct o1 as [[[nodes avg] sorted]|e|].
  2:{ unfold balance_nodes, bind in Hrun. rewrite Hprep in Hrun.
      inversion Hrun; subst.
      apply prepare_raise_inv in Hprep
        as [(-> & _) | (s & ss & -> & _)]; discriminate. }
  2:{ unfold balance_nodes, bind in Hrun. rewrite Hprep in Hrun.
      inversion Hrun; subst. discriminate. }
  rewrite (balance_nodes_after_prepare _ _ _ _ _ _ Hprep) in Hrun.
  apply prepare_ok_inv in Hprep
    as (ss & sizes & k & Hcpu & -> & Hconv & Hlen & -> & Hexit & -> & ->).
  match type of Hrun with
  | bind (partition fuel ?a ?l) _ ?w0 = _ =>
      destruct (partition_passes fuel a l w0)
        as (es & v & Hps & [[Hpart Hend] | Hpart])
  end.
  2:{ unfold bind in Hrun. rewrite Hpart in Hrun.
      inversion Hrun; subst. discriminate. }
  rewrite (bind_ok _ _ _ _ _ Hpart) in Hrun.
  match type of Hrun with
  | finish ?n ?a ?v0 ?w0 = _ =>
      destruct (finish_run n a v0 w0) as [[Hag Hfin] | (c & Hag & Hc & Hfin)]
  end; rewrite Hfin in Hrun; inversion Hrun; subst w' o; clear Hrun.
  - exists ss, sizes, k, es, v, []. simpl.
    repeat split; try assumption.
    + now rewrite <- !app_assoc.
    + left. now repeat split.
  - exists ss, sizes, k, es, v, [Write_submit_configs c]. simpl.
    repeat split; try assumption.
    + now rewrite <- !app_assoc.
    + right. split; [exact Hag|]. exists c. repeat split. exact Hc.
Qed.

End RunShape.

Section RunFacts.
Import PyNum.

Lemma prepare_log_no_groups (ss : list string) (k : nat) (a : pyfloat) :
  written_groups (warnings ss ++ adjust_log k a) = [].
Proof.
  rewrite written_groups_app.
  assert (H1 : written_groups (warnings ss) = [])
    by (induction ss; simpl; auto).
  assert (H2 : written_groups (adjust_log k a) = []).
  { destruct k as [|k]; [reflexivity|].
    change (adjust_log (S k) a) with (repeat Warning_empty_partition (S k)).
    induction (S k); simpl; auto. }
  now rewrite H1, H2.
Qed.


Lemma entry_open_is_counted (sorted : list item) :
  open_is_counted (entry sorted).
Proof. intros _. reflexivity. Qed.

Lemma concat_nonempty_length (gs : list (nat * list string)) :
  Forall (fun gm => snd gm <> []) gs ->
  (List.length gs <= List.length (List.concat (map snd gs)))%nat.
Proof.
  induction 1 as [|[n m] gs Hm _ IH]; simpl; [lia|].
  rewrite length_app. destruct m; [now destruct Hm|]. simpl. lia.
Qed.

End RunFacts.



Section RunOutcomes.
Import PyNum.

Lemma loop_group_count (avg : pyfloat) (sorted : list item)
  (es : list event) (v : locals) :
  passes avg (entry sorted) es v ->
  df_sorted v = [] ->
  List.length (written_groups es) = 0%nat
  \/ (List.length (written_groups es) + 2 <= List.length sorted)%nat.
Proof.
  intros Hps Hend.
  destruct (passes_permutation _ _ _ _ Hps) as (last & HP & Hlast).
  destruct (passes_groups _ _ _ _ Hps (entry_open_is_counted sorted))
    as (k & _ & _ & _ & Hne).
  apply concat_nonempty_length in Hne.
  rewrite <- written_ids_concat in Hne.
  rewrite Hend in HP. simpl in HP.
  apply Permutation_length in HP.
  rewrite !length_app in HP. unfold ids in HP. rewrite length_map in HP.
  destruct sorted as [|a [|b rest]].
  - left. simpl in HP. lia.
  - left. destruct Hlast as [[_ Hstart] | [H1 _]].
    + specialize (Hstart Hend). discriminate.
    + simpl in HP. lia.
  - right.
    assert (Hopen : curr_group v <> []).
    { apply (passes_open_group _ _ _ _ Hps Hend). left. simpl. lia. }
    assert (Ho : (1 <= List.length (curr_group v))%nat).
    { destruct (curr_group v); [contradiction | simpl; lia]. }
    destruct Hlast as [[_ Hstart] | [H1 _]].
    + specialize (Hstart Hend). discriminate.
    + simpl in HP |- *. unfold item in *. lia.
Qed.


Lemma seq_nil_inv (a k : nat) : seq a k = [] -> k = 0%nat.
Proof. destruct k; [reflexivity | discriminate]. Qed.

Lemma row_of_with_sizes (d : list row) (sizes : list pyfloat) (r : row) :
  In r (with_sizes d sizes) ->
  exists x, In x sizes
            /\ run_1_size r = Num x
            /\ disk_req r = Some (scale x 20).
Proof.
  unfold with_sizes. intros Hin. apply in_map_iff in Hin
    as ([r0 x] & <- & Hin).
  exists x. split; [|now split]. exact (in_combine_r _ _ _ _ Hin).
Qed.

End RunOutcomes.

Lemma completed_run_groups (fuel : nat) (w w' : world)
  (o : outcome configs) :
  balance_nodes fuel w = (w', o) ->
  completed o = true ->
  exists pre loop g tail,
    events w'
    = (events w ++ pre ++ storage_reset (cfg w) ++ loop
       ++ Write_queue (seq 1 g) :: tail)%list
    /\ written_groups pre = []
    /\ map fst (written_groups loop) = seq 1 g
    /\ Forall (fun gm => snd gm <> []) (written_groups loop)
    /\ (g = 0%nat \/ (g + 2 <= List.length (df w))%nat)
    /\ ((g = 0%nat /\ o = Raise (ZeroDivisionError CpuReallocation)
         /\ tail = [])
        \/ (g <> 0%nat
            /\ exists c, o = Ok c /\ tail = [Write_submit_configs c])).
Proof.
  intros Hrun Hdone.
  destruct (balance_nodes_completed _ _ _ _ Hrun Hdone)
    as (ss & sizes & k & es & v & tail & _ & _ & Hlen & _ & Hps & Hend & _
        & Hev & Htail).
  destruct (passes_groups _ _ _ _ Hps (entry_open_is_counted _))
    as (g & _ & Hag & Hnum & Hne).
  simpl in Hag, Hnum.
  exists (warnings ss
          ++ adjust_log k
               (PyNum.div_int (Series.sum (disk_reqs sizes))
                  (max_cpu_request (cfg w) / cpu_per_node (cfg w))))%list,
    es, g, tail.
  split; [rewrite Hev, <- Hag; now rewrite <- !app_assoc|].
  split; [apply prepare_log_no_groups|].
  split; [exact Hnum|]. split; [exact Hne|].
  assert (Hg : List.length (written_groups es) = g).
  { rewrite <- (length_map fst), Hnum. apply length_seq. }
  split.
  - destruct (loop_group_count _ _ _ _ Hps Hend) as [H0 | H2].
    + left. now rewrite <- Hg.
    + right. rewrite Hg in H2.
      rewrite sort_desc_length, items_of_length in H2; assumption.
  - destruct Htail as [(Hnone & -> & -> & _) | (Hsome & c & -> & -> & _)].
    + left. rewrite Hag in Hnone. apply seq_nil_inv in Hnone.
      now repeat split.
    + right. split.
      * intros ->. now apply Hsome.
      * now exists c.
Qed.

(** X6.  In a run that gets through the partition loop, the events come
    in this order: the warnings of the conversion and of the threshold
    loop, which write no group file; the reset of the storage (the list
    folder and the queue file removed, the folder made again); the
    partition loop; the queue file; the configuration file, if the run
    returns.  The group files written by the loop are numbered 1, 2,
    ..., g in this order, none is empty, and the queue file lists
    exactly these numbers.  There are at least two fewer groups than
    rows, unless there is no group at all, which is when the run ends
    in the ZeroDivisionError of the CPU reallocation. *)
Theorem group_files_are_numbered (fuel : nat) (w w' : world)
  (o : outcome configs) :
  balance_nodes fuel w = (w', o) ->
  completed o = true ->
  exists pre loop g tail,
    events w'
    = (events w ++ pre ++ storage_reset (cfg w) ++ loop
       ++ Write_queue (seq 1 g) :: tail)%list
    /\ written_groups pre = []
    /\ map fst (written_groups loop) = seq 1 g
    /\ Forall (fun gm => snd gm <> []) (written_groups loop)
    /\ (g = 0%nat \/ (g + 2 <= List.length (df w))%nat)
    /\ ((g = 0%nat /\ o = Raise (ZeroDivisionError CpuReallocation)
         /\ tail = [])
        \/ (g <> 0%nat
            /\ exists c, o = Ok c /\ tail = [Write_submit_configs c])).
Proof. exact (completed_run_groups fuel w w' o). Qed.

Lemma group_files_are_numbered_witness :
  exists w' o,
    balance_nodes 20 scenario = (w', o)
    /\ exists pre loop g tail,
         events w'
         = (events scenario ++ pre ++ storage_reset (cfg scenario) ++ loop
            ++ Write_queue (seq 1 g) :: tail)%list
         /\ map fst (written_groups loop) = seq 1 g
         /\ Forall (fun gm => snd gm <> []) (written_groups loop).
Proof.
  do 2 eexists.
  match goal with
  | |- ?A /\ _ => assert (Hrun : A) by (vm_compute; reflexivity)
  end.
  split; [exact Hrun|].
  destruct (group_files_are_numbered _ _ _ _ Hrun eq_refl)
    as (pre & loop & g & tail & Hev & _ & Hnum & Hne & _).
  exists pre, loop, g, tail. now repeat split.
Defined.




Lemma run_terminates (w : world) (ss : list string)
  (sizes : list pyfloat) :
  cpu_per_node (cfg w) <> 0 ->
  max_cpu_request (cfg w) / cpu_per_node (cfg w) <> 0 ->
  apply_convert_size (map run_1_size (df w)) w
  = (logged w (warnings ss), Ok sizes) ->
  forallb is_finite sizes = true ->
  exists n, forall fuel, (n <= fuel)%nat ->
    exists w' o, balance_nodes fuel w = (w', o) /\ completed o = true.
Proof.
  intros Hcpu Hnodes Hconv Hfin.
  destruct (prepare_terminates _ _ _ Hcpu Hnodes Hconv Hfin) as (k & Hk).
  exists (k + S (2 * List.length (df w)))%nat. intros fuel Hfuel.
  destruct (Hk fuel ltac:(lia)) as (w1 & avg & Hprep).
  rewrite (balance_nodes_after_prepare _ _ _ _ _ _ Hprep).
  apply prepare_ok_inv in Hprep
    as (ss' & sizes' & k' & _ & _ & _ & Hlen & _ & _ & Hsorted & _).
  destruct (partition_run fuel avg
              (Series.sort_desc snd (items_of (df w) sizes)) w1)
    as (es & o & Hpart & _ & _ & _ & Hok).
  assert (Hn : List.length (Series.sort_desc snd (items_of (df w) sizes))
               = List.length (df w)).
  { rewrite Hsorted, sort_desc_length. now apply items_of_length. }
  destruct Hok as (v & ->); [unfold item in *; rewrite Hn; lia|].
  rewrite (bind_ok _ _ _ _ _ Hpart).
  match goal with
  | |- exists w' o, finish ?n ?a ?v0 ?w0 = _ /\ _ =>
      destruct (finish_run n a v0 w0) as [[_ Hf] | (c & _ & _ & Hf)]
  end; rewrite Hf; do 2 eexists; split; reflexivity.
Qed.

Lemma run_completes_after_prepare (fuel : nat) (w w1 : world) (nodes : Z)
  (avg : pyfloat) (sorted : list item) :
  prepare fuel w = (w1, Ok (nodes, avg, sorted)) ->
  (2 * List.length (df w) < fuel)%nat ->
  exists w' o, balance_nodes fuel w = (w', o) /\ completed o = true.
Proof.
  intros Hprep Hfuel.
  rewrite (balance_nodes_after_prepare _ _ _ _ _ _ Hprep).
  assert (Hn : List.length sorted = List.length (df w)).
  { destruct (prepare_ok_inv _ _ _ _ _ _ Hprep)
      as (ss & sizes & k & _ & _ & _ & Hl & _ & _ & -> & _).
    now rewrite sort_desc_length, items_of_length. }
  destruct (partition_run fuel avg sorted w1)
    as (es & o & Hpart & _ & _ & _ & Hok).
  destruct Hok as (v & ->); [unfold item in *; rewrite Hn; lia|].
  rewrite (bind_ok _ _ _ _ _ Hpart).
  match goal with
  | |- exists w' o, finish ?n ?a ?v0 ?w0 = _ /\ _ =>
      destruct (finish_run n a v0 w0) as [[_ Hf] | (c & _ & _ & Hf)]
  end; rewrite Hf; do 2 eexists; split; reflexivity.
Qed.

(** X4.  The partition loop always ends: whatever the threshold and the
    disk requirements are ([nan] and [inf] included), it makes at most
    twice as many passes as there are rows, plus one.  So a call that
    has got through the threshold loop does not hang. *)
Theorem partition_loop_terminates (fuel : nat) :
  (forall avg sorted w,
      (2 * List.length sorted < fuel)%nat ->
      exists w' o,
        partition fuel avg sorted w = (w', o) /\ o <> OutOfFuel)
  /\ (forall w w1 nodes avg sorted,
        prepare fuel w = (w1, Ok (nodes, avg, sorted)) ->
        (2 * List.length (df w) < fuel)%nat ->
        exists w' o, balance_nodes fuel w = (w', o) /\ o <> OutOfFuel).
Proof.
  split.
  - intros avg sorted w Hfuel.
    destruct (partition_run fuel avg sorted w)
      as (es & o & Hpart & _ & _ & _ & Hok).
    destruct (Hok Hfuel) as (v & ->).
    do 2 eexists. split; [exact Hpart | discriminate].
  - intros w w1 nodes avg sorted Hprep Hfuel.
    destruct (run_completes_after_prepare _ _ _ _ _ _ Hprep Hfuel)
      as (w' & o & Hrun & Hdone).
    exists w', o. split; [exact Hrun|]. intros ->. discriminate.
Qed.

Lemma partition_loop_terminates_witness :
  exists w1 avg sorted w' o,
    prepare 20 scenario = (w1, Ok (2, avg, sorted))
    /\ balance_nodes 20 scenario = (w', o)
    /\ o <> OutOfFuel.
Proof.
  do 3 eexists.
  match goal with
  | |- exists w' o, ?A /\ _ =>
      assert (Hprep : A) by (vm_compute; reflexivity)
  end.
  destruct (proj2 (partition_loop_terminates 20) _ _ _ _ _ Hprep
              ltac:(simpl; lia))
    as (w' & o & Hrun & Ho).
  exists w', o. now repeat split.
Defined.

Lemma rows_below_threshold (fuel : nat) (w w' : world)
  (c : configs) :
  balance_nodes fuel w = (w', Ok c) ->
  exists avg,
    disk_request c = Some avg
    /\ disk_request (cfg w') = Some avg
    /\ forall r, In r (df w') ->
         exists x, run_1_size r = Num x
                   /\ disk_req r = Some (PyNum.scale x 20)
                   /\ PyNum.gtb (PyNum.scale x 20) avg = false.
Proof.
  intros Hrun.
  destruct (balance_nodes_completed _ _ _ _ Hrun eq_refl)
    as (ss & sizes & k & es & v & tail & _ & _ & _ & Hexit & _ & _ & Hdf
        & _ & Htail).
  destruct Htail as [(_ & H & _) | (_ & c0 & Hc & _ & Hcfg & Hc0)];
    [discriminate|].
  injection Hc as ->.
  eexists. split; [rewrite Hc0; reflexivity|].
  split; [rewrite Hcfg, Hc0; reflexivity|].
  intros r Hin. rewrite Hdf in Hin.
  destruct (row_of_with_sizes _ _ _ Hin) as (x & Hx & Hsize & Hreq).
  exists x. split; [exact Hsize|]. split; [exact Hreq|].
  assert (Hcol : In (PyNum.scale x 20) (disk_reqs sizes))
    by (unfold disk_reqs;
        exact (in_map (fun y => PyNum.scale y 20) _ _ Hx)).
  destruct (PyNum.is_nan (PyNum.scale x 20)) eqn:Hnan.
  - destruct (PyNum.scale x 20); try discriminate.
    unfold PyNum.gtb. now destruct (add_passes _ _).
  - apply not_gt_trans with (y := Series.max (disk_reqs sizes)).
    + exact (max_not_nan _ _ Hcol Hnan).
    + exact (max_upper_bound _ _ Hcol).
    + exact Hexit.
Qed.

(** X7.  When the call returns, the [disk_request] it returns and stores
    is a threshold that no row exceeds: every row of the caller's
    DataFrame then has a numeric size [x], a [disk_req] of [20 * x], and
    this [disk_req] is not greater than the returned [disk_request]. *)
Theorem returned_disk_request_covers_rows (fuel : nat) (w w' : world)
  (c : configs) :
  balance_nodes fuel w = (w', Ok c) ->
  exists avg,
    disk_request c = Some avg
    /\ disk_request (cfg w') = Some avg
    /\ forall r, In r (df w') ->
         exists x, run_1_size r = Num x
                   /\ disk_req r = Some (PyNum.scale x 20)
                   /\ PyNum.gtb (PyNum.scale x 20) avg = false.
Proof. exact (rows_below_threshold fuel w w' c). Qed.

Lemma returned_disk_request_covers_rows_witness :
  exists w' c avg,
    balance_nodes 20 scenario = (w', Ok c)
    /\ disk_request c = Some avg
    /\ forall r, In r (df w') ->
         exists x, run_1_size r = Num x
                   /\ disk_req r = Some (PyNum.scale x 20)
                   /\ PyNum.gtb (PyNum.scale x 20) avg = false.
Proof.
  do 2 eexists.
  match goal with
  | |- exists avg, ?A /\ _ =>
      assert (Hrun : A) by (vm_compute; reflexivity)
  end.
  destruct (returned_disk_request_covers_rows _ _ _ _ Hrun)
    as (avg & Havg & _ & Hrows).
  exists avg. split; [exact Hrun|]. now split.
Defined.

Section NoGroup.
Import PyNum.

Lemma is_zero_finite (x : pyfloat) : is_zero x = true -> is_finite x = true.
Proof. now destruct x. Qed.

Lemma is_zero_add (x y : pyfloat) :
  is_zero x = true -> is_zero y = true -> is_zero (add x y) = true.
Proof.
  destruct x as [a| | |], y as [b| | |]; simpl; try discriminate.
  rewrite !Qeq_bool_iff. intros Ha Hb. rewrite Ha, Hb. reflexivity.
Qed.

Lemma is_zero_scale (x : pyfloat) (k : Q) :
  is_zero x = true -> is_zero (scale x k) = true.
Proof.
  destruct x as [a| | |]; simpl; try discriminate.
  rewrite !Qeq_bool_iff. intros Ha. rewrite Ha. ring.
Qed.

Lemma pass_weightless (avg : pyfloat) (v v' : locals) (es : list event)
  (f : flow) :
  pass avg v es v' f ->
  weightless (df_sorted v) ->
  is_zero (node_size v) = true ->
  written_groups es = []
  /\ weightless (df_sorted v')
  /\ is_zero (node_size v') = true.
Proof.
  intros Hp Hw Hz. inversion Hp; subst; simpl in *;
    try (rewrite Hz in *; discriminate).
  - repeat split; [constructor | exact Hz].
  - inversion Hw; subst. repeat split; [assumption|].
    now apply is_zero_add.
Qed.

Lemma passes_weightless (avg : pyfloat) (v v' : locals) (es : list event) :
  passes avg v es v' ->
  weightless (df_sorted v) ->
  is_zero (node_size v) = true ->
  written_groups es = [].
Proof.
  induction 1 as [v | v es v' Hp | v es1 v1 es2 v2 Hp Hps IH];
    intros Hw Hz.
  - reflexivity.
  - exact (proj1 (pass_weightless _ _ _ _ _ Hp Hw Hz)).
  - destruct (pass_weightless _ _ _ _ _ Hp Hw Hz) as (H1 & Hw1 & Hz1).
    rewrite written_groups_app, H1. simpl. now apply IH.
Qed.

Lemma items_of_weightless (d : list row) (sizes : list pyfloat) :
  forallb is_zero sizes = true ->
  weightless (Series.sort_desc snd (items_of d sizes)).
Proof.
  intros Hz. unfold weightless.
  apply (Permutation_Forall
           (Permutation_sym (sort_desc_permutation snd (items_of d sizes)))).
  apply Forall_forall. intros [i x] Hin. simpl.
  unfold items_of in Hin. apply in_combine_r in Hin.
  unfold disk_reqs in Hin. apply in_map_iff in Hin as (s & <- & Hs).
  apply is_zero_scale.
  rewrite forallb_forall in Hz. now apply Hz.
Qed.

Lemma forallb_zero_finite (sizes : list pyfloat) :
  forallb is_zero sizes = true -> forallb is_finite sizes = true.
Proof.
  rewrite !forallb_forall. intros H x Hx. apply is_zero_finite. now apply H.
Qed.

End NoGroup.

(** X8.  When every size converts to zero (a size that is missing, or
    has an unknown unit, converts to zero), the call closes no group,
    whatever the number of rows: with at least one node in the
    configuration it ends in the ZeroDivisionError of the CPU
    reallocation, and no group file is written. *)
Theorem zero_sizes_raise_zero_division (w : world) (ss : list string)
  (sizes : list pyfloat) :
  cpu_per_node (cfg w) <> 0 ->
  max_cpu_request (cfg w) / cpu_per_node (cfg w) <> 0 ->
  apply_convert_size (map run_1_size (df w)) w
  = (logged w (warnings ss), Ok sizes) ->
  forallb PyNum.is_zero sizes = true ->
  exists n, forall fuel, (n <= fuel)%nat ->
    exists w',
      balance_nodes fuel w = (w', Raise (ZeroDivisionError CpuReallocation))
      /\ written_groups (events w') = written_groups (events w).
Proof.
  intros Hcpu Hnodes Hconv Hz.
  destruct (run_terminates _ _ _ Hcpu Hnodes Hconv (forallb_zero_finite _ Hz))
    as (n & Hn).
  exists n. intros fuel Hfuel.
  destruct (Hn fuel Hfuel) as (w' & o & Hrun & Hdone).
  exists w'.
  destruct (balance_nodes_completed _ _ _ _ Hrun Hdone)
    as (ss' & sizes' & k & es & v & tail & _ & Hconv' & _ & _ & Hps & _ & _
        & Hev & Htail).
  rewrite Hconv in Hconv'. injection Hconv' as _ <-.
  assert (Hnone : written_groups es = []).
  { apply (passes_weightless _ _ _ _ Hps); [|reflexivity].
    now apply items_of_weightless. }
  destruct (passes_groups _ _ _ _ Hps (entry_open_is_counted _))
    as (g & _ & Hag & Hnum & _).
  simpl in Hag, Hnum. rewrite Hnone in Hnum. simpl in Hnum.
  symmetry in Hnum. apply seq_nil_inv in Hnum. subst g. simpl in Hag.
  destruct Htail as [(_ & -> & -> & _) | (Hsome & _)];
    [|now destruct Hsome].
  split; [exact Hrun|].
  rewrite Hev, written_groups_app.
  rewrite (app_assoc (warnings ss')), written_groups_app.
  rewrite prepare_log_no_groups. simpl.
  rewrite written_groups_app, Hnone. simpl. now rewrite app_nil_r.
Qed.

Lemma zero_sizes_raise_zero_division_witness :
  exists n, forall fuel, (n <= fuel)%nat ->
    exists w',
      balance_nodes fuel unsized
      = (w', Raise (ZeroDivisionError CpuReallocation))
      /\ written_groups (events w') = written_groups (events unsized).
Proof.
  eapply (zero_sizes_raise_zero_division unsized ["3TB"]).
  - vm_compute. discriminate.
  - vm_compute. discriminate.
  - vm_compute. reflexivity.
  - vm_compute. reflexivity.
Defined.

(** X9.  A DataFrame of at most two rows never gives a group: once the
    preparation (the conversion of the sizes and the threshold loop) has
    ended, the first row is put in the open group, the second is
    dropped as the last row, and the call ends in the ZeroDivisionError
    of the CPU reallocation, whatever the sizes are. *)
Theorem two_rows_raise_zero_division (fuel : nat) (w w1 : world) (nodes : Z)
  (avg : pyfloat) (sorted : list item) :
  (List.length (df w) <= 2)%nat ->
  (2 * List.length (df w) < fuel)%nat ->
  prepare fuel w = (w1, Ok (nodes, avg, sorted)) ->
  exists w',
    balance_nodes fuel w = (w', Raise (ZeroDivisionError CpuReallocation))
    /\ written_groups (events w') = written_groups (events w).
Proof.
  intros Hlen Hfuel Hprep.
  destruct (run_completes_after_prepare _ _ _ _ _ _ Hprep Hfuel)
    as (w' & o & Hrun & Hdone).
  exists w'.
  destruct (completed_run_groups _ _ _ _ Hrun Hdone)
    as (pre & loop & g & tail & Hev & Hpre & Hnum & _ & Hcount & Hout).
  assert (Hg : g = 0%nat) by lia. subst g.
  destruct Hout as [(_ & -> & ->) | (Hg & _)]; [|now destruct Hg].
  split; [exact Hrun|].
  simpl in Hnum. apply map_eq_nil in Hnum.
  rewrite Hev, !written_groups_app, Hpre, Hnum. simpl.
  now rewrite app_nil_r.
Qed.

Lemma two_rows_raise_zero_division_witness :
  exists w1 avg sorted w',
    prepare 20 two_rows = (w1, Ok (2, avg, sorted))
    /\ balance_nodes 20 two_rows
       = (w', Raise (ZeroDivisionError CpuReallocation))
    /\ written_groups (events w') = written_groups (events two_rows).
Proof.
  do 3 eexists.
  match goal with
  | |- exists w', ?A /\ _ =>
      assert (Hprep : A) by (vm_compute; reflexivity)
  end.
  destruct (two_rows_raise_zero_division 20 two_rows _ _ _ _
              ltac:(simpl; lia) ltac:(simpl; lia) Hprep)
    as (w' & Hrun & Hgr).
  exists w'. now repeat split.
Defined.

Section SubmitFile.
Import PyNum.

Lemma main_inv (fuel : nat) (base_dir : string) (st : settings)
  (w w' : world) (r : option submit_file) :
  main fuel base_dir st w = (w', Ok r) ->
  exists c, balance_nodes fuel w = (w', Ok c)
            /\ r = build_submit_file base_dir st c.
Proof.
  unfold main. intros H. apply bind_inv_ok in H as (w1 & c & Hrun & Hret).
  unfold ret in Hret. inversion Hret; subst. now exists c.
Qed.

Lemma main_raise (fuel : nat) (base_dir : string) (st : settings)
  (w w' : world) (e : exn) :
  balance_nodes fuel w = (w', Raise e) ->
  main fuel base_dir st w = (w', Raise e).
Proof. intros H. unfold main, bind. now rewrite H. Qed.






End SubmitFile.

(** X10.  When [main] gets through [balance_nodes], the submit file is
    always written: [build_submit_file] finds the [disk_request] that
    [balance_nodes] stored.  Its [request_cpus] is the reallocated
    [cpu_per_node], the configured value or twice it; it queues from
    the configured [sra_query_file], which is also among the files it
    transfers; and its [request_disk] is the returned threshold floor
    divided by 10^9.  When [balance_nodes] raises, so does [main], and
    no submit file is built. *)
Theorem submit_file_after_balance (fuel : nat) (base_dir : string)
  (st : settings) (w w' : world) :
  (forall r,
      main fuel base_dir st w = (w', Ok r) ->
      exists c avg f,
        balance_nodes fuel w = (w', Ok c)
        /\ disk_request c = Some avg
        /\ r = Some f
        /\ request_cpus f = cpu_per_node c
        /\ (request_cpus f = cpu_per_node (cfg w)
            \/ request_cpus f = 2 * cpu_per_node (cfg w))
        /\ queue_from f = sra_query_file (cfg w)
        /\ In (sra_query_file (cfg w)) (transfer_input_files f)
        /\ In (sra_list_folder (cfg w)) (transfer_input_files f)
        /\ request_disk f = floordiv_float avg 1000000000)
  /\ (forall e,
        balance_nodes fuel w = (w', Raise e) ->
        main fuel base_dir st w = (w', Raise e)).
Proof.
  split; [|intros e; apply main_raise].
  intros r Hmain.
  destruct (main_inv _ _ _ _ _ _ Hmain) as (c & Hrun & ->).
  destruct (rows_below_threshold _ _ _ _ Hrun) as (avg & Havg & _ & _).
  destruct (balance_nodes_completed _ _ _ _ Hrun eq_refl)
    as (ss & sizes & k & es & v & tail & _ & _ & _ & _ & _ & _ & _ & _
        & Htail).
  destruct Htail as [(_ & H & _) | (_ & c0 & Hc & _ & _ & Hc0)];
    [discriminate|].
  injection Hc as <-.
  unfold build_submit_file. rewrite Havg.
  eexists c, avg, _. split; [exact Hrun|]. split; [exact Havg|].
  split; [reflexivity|]. simpl.
  split; [reflexivity|]. split.
  { rewrite Hc0. simpl.
    destruct (2 <=? _)%Z; [now right | now left]. }
  split; [rewrite Hc0; reflexivity|].
  split; [rewrite Hc0; simpl; tauto|].
  split; [rewrite Hc0; simpl; tauto|].
  reflexivity.
Qed.

Lemma submit_file_after_balance_witness :
  exists w' f,
    main 20 "/home/user/SRA_Dispatch" scenario_settings scenario
    = (w', Ok (Some f))
    /\ request_cpus f = 8
    /\ queue_from f = "sra_queue.txt".
Proof.
  do 2 eexists.
  match goal with
  | |- ?A /\ _ => assert (Hmain : A) by (vm_compute; reflexivity)
  end.
  split; [exact Hmain|].
  destruct (proj1 (submit_file_after_balance _ _ _ _ _) _ Hmain)
    as (c & avg & f & _ & _ & Hf & _ & _ & _ & _).
  injection Hf as <-.
  split; reflexivity.
Defined.



Section Reconversion.

Lemma reconvert_column (l : list row) (w : world) :
  Forall (fun r => exists y, run_1_size r = Num y) l ->
  exists xs,
    apply_convert_size (map run_1_size l) w = (w, Ok xs)
    /\ Forall2 (fun r x => exists y, run_1_size r = Num y
                                     /\ x = reconverted y) l xs.
Proof.
  induction 1 as [|r l (y & Hy) _ (xs & Hxs & Hall)].
  - exists []. split; [reflexivity | constructor].
  - exists (reconverted y :: xs). split.
    + simpl. rewrite Hy. unfold bind at 1.
      assert (Hc : convert_size (Num y) w = (w, Ok (reconverted y))).
      { unfold convert_size, reconverted, isna.
        now destruct (PyNum.is_nan y). }
      rewrite Hc. unfold bind at 1. rewrite Hxs. reflexivity.
    + constructor; [now exists y | exact Hall].
Qed.

End Reconversion.

(** X12.  After a call that got through the partition loop, the caller's
    DataFrame can be converted again: every [run_1_size] is then a
    number, and [convert_size] gives it back ([nan] as 0) without a
    warning and without a ValueError, whatever the strings of the first
    call were. *)
Theorem reconversion_is_silent (fuel : nat) (w w' : world)
  (o : outcome configs) :
  balance_nodes fuel w = (w', o) ->
  completed o = true ->
  forall w2,
    df w2 = df w' ->
    exists xs,
      apply_convert_size (map run_1_size (df w2)) w2 = (w2, Ok xs)
      /\ Forall2 (fun r x => exists y, run_1_size r = Num y
                                       /\ x = reconverted y) (df w2) xs.
Proof.
  intros Hrun Hdone w2 Hdf.
  destruct (balance_nodes_completed _ _ _ _ Hrun Hdone)
    as (ss & sizes & k & es & v & tail & _ & _ & _ & _ & _ & _ & Hw & _).
  apply reconvert_column. rewrite Hdf, Hw.
  apply Forall_forall. intros r Hin.
  destruct (row_of_with_sizes _ _ _ Hin) as (x & _ & Hx & _).
  now exists x.
Qed.

Lemma reconversion_is_silent_witness :
  exists w' c xs,
    balance_nodes 20 scenario = (w', Ok c)
    /\ apply_convert_size (map run_1_size (df w')) w' = (w', Ok xs).
Proof.
  do 2 eexists.
  match goal with
  | |- exists xs, ?A /\ _ =>
      assert (Hrun : A) by (vm_compute; reflexivity)
  end.
  destruct (reconversion_is_silent _ _ _ _ Hrun eq_refl _ eq_refl)
    as (xs & Hxs & _).
  exists xs. now split.
Defined.

Section Paths.

Lemma string_app_assoc (a b c : string) :
  ((a ++ b) ++ c = a ++ (b ++ c))%string.
Proof. induction a as [|x a IH]; simpl; [reflexivity | now rewrite IH]. Qed.

Lemma string_length_app (a b : string) :
  String.length (a ++ b) = (String.length a + String.length b)%nat.
Proof. induction a as [|x a IH]; simpl; [reflexivity | now rewrite IH]. Qed.

Lemma ends_with_app (pat a : string) : ends_with pat (a ++ pat) = true.
Proof.
  induction a as [|x a IH]; simpl.
  - destruct pat; simpl; [reflexivity|].
    now rewrite Ascii.eqb_refl, String.eqb_refl.
  - rewrite IH. apply orb_true_r.
Qed.

Lemma ends_with_longer (pat a k : string) :
  ends_with pat k = false ->
  (String.length pat < String.length k)%nat ->
  ends_with pat (a ++ k) = false.
Proof.
  intros Hk Hlen. induction a as [|x a IH]; [exact Hk|].
  change (ends_with pat (String x a ++ k))
    with (String.eqb pat (String x (a ++ k)) || ends_with pat (a ++ k)).
  rewrite IH, orb_false_r.
  destruct (String.eqb_spec pat (String x (a ++ k))) as [E|]; [|reflexivity].
  apply (f_equal String.length) in E. simpl in E.
  rewrite string_length_app in E. lia.
Qed.

Lemma path_join_relative (a b : string) :
  PyStr.starts_with "/" b = false ->
  exists x, path_join a b = (x ++ b)%string.
Proof.
  intros Hb. unfold path_join. rewrite Hb.
  destruct ((String.length a =? 0)%nat || ends_with_sep a).
  - now exists a.
  - exists (a ++ "/")%string. now rewrite string_app_assoc.
Qed.

End Paths.

(** X13.  The submit file never ships the configuration that
    [balance_nodes] wrote: the first of its [transfer_input_files] is
    [config/submit_configs.json] under the base directory, while
    [balance_nodes] writes [configs/submit_configs.json] under the
    working directory; whatever the two directories are, these are
    different paths. *)
Theorem transferred_configs_is_not_the_written_file (cwd base_dir : string)
  (st : settings) (c : configs) (f : submit_file) :
  build_submit_file base_dir st c = Some f ->
  exists p rest,
    transfer_input_files f = p :: rest
    /\ p = path_join base_dir "config/submit_configs.json"
    /\ p <> submit_configs_path
    /\ p <> path_join cwd submit_configs_path.
Proof.
  unfold build_submit_file. destruct (disk_request c); [|discriminate].
  intros H. injection H as <-. simpl.
  eexists. eexists. split; [reflexivity|]. split; [reflexivity|].
  destruct (path_join_relative base_dir "config/submit_configs.json" eq_refl)
    as (x & ->).
  assert (Hp : ends_with "s/submit_configs.json"
                 (x ++ "config/submit_configs.json") = false)
    by (apply ends_with_longer; [reflexivity | simpl; lia]).
  split; intros E; rewrite E in Hp.
  - discriminate Hp.
  - destruct (path_join_relative cwd submit_configs_path eq_refl)
      as (y & Hy).
    rewrite Hy in Hp. unfold submit_configs_path in Hp.
    change "configs/submit_configs.json"
      with ("config" ++ "s/submit_configs.json")%string in Hp.
    rewrite <- string_app_assoc, ends_with_app in Hp. discriminate.
Qed.

Lemma transferred_configs_is_not_the_written_file_witness :
  exists f p rest,
    build_submit_file "/home/user/SRA_Dispatch" scenario_settings
      (mkConfigs 8 8 (Some (Fin 50)) "sras_to_process" "sra_queue.txt")
    = Some f
    /\ transfer_input_files f = p :: rest
    /\ p <> path_join "/home/user/SRA_Dispatch" submit_configs_path.
Proof.
  eexists.
  match goal with
  | |- exists p rest, ?A /\ _ =>
      assert (Hf : A) by (vm_compute; reflexivity)
  end.
  destruct (transferred_configs_is_not_the_written_file
              "/home/user/SRA_Dispatch" _ _ _ _ Hf)
    as (p & rest & Ht & _ & _ & Hne).
  exists p, rest. now repeat split.
Defined.
